(** * Network capture client of the RapidAPI MCP server

    A shallow embedding of [rapidapi_mcp_server/enhanced_chrome_client.py]
    (class [EnhancedChromeClient]) and the properties of its capture buffer,
    monitoring controller, payload extractors and assessment orchestrator.

    Conventions of the embedding:
    - Python values are the inductive type [value]; a dict is an association
      list in insertion order, a str is a [string] of bytes (UTF-8), an int
      is a [Z] and a float is a binary64 primitive float.
    - A method of the client is a function of the monad [M]: it takes the
      object state and returns an outcome (a value or a raised exception)
      with the new state. What was mutated before a raise stays mutated.
    - The browser driver, the parent class [ChromeClient] and the clock are
      the class [Driver]: one oracle answers every external call and says
      which CDP events were delivered to the handlers meanwhile. *)

From Stdlib Require Import ZArith List String Ascii Bool Lia Floats.
Import ListNotations.
Local Open Scope string_scope.
Local Open Scope Z_scope.
Set Warnings "-register-all".

(** ** Text *)

Module Text.

(** The double quote character (code 34). *)
Definition dquote : ascii := Ascii false true false false false true false false.

(** [dq s] is [s] with every apostrophe replaced by a double quote: the
    way the texts of the source that hold double quotes are written here. *)
Fixpoint dq (s : string) : string :=
  match s with
  | EmptyString => EmptyString
  | String c r => String (if Ascii.eqb c "'" then dquote else c) (dq r)
  end.

(** [str.lower] on the ASCII range. *)
Definition lower_ascii (c : ascii) : ascii :=
  let n := nat_of_ascii c in
  if (Nat.leb 65 n && Nat.leb n 90)%bool then ascii_of_nat (n + 32) else c.

Fixpoint lower (s : string) : string :=
  match s with
  | EmptyString => EmptyString
  | String c r => String (lower_ascii c) (lower r)
  end.

(** [strip_prefix p s] is the rest of [s] after its prefix [p]. *)
Fixpoint strip_prefix (p s : string) : option string :=
  match p, s with
  | EmptyString, _ => Some s
  | String a p', String b s' => if Ascii.eqb a b then strip_prefix p' s' else None
  | String _ _, EmptyString => None
  end.

Definition starts_with (p s : string) : bool :=
  match strip_prefix p s with Some _ => true | None => false end.

(** [needle in hay] for two str. *)
Fixpoint contains (needle hay : string) : bool :=
  starts_with needle hay ||
  match hay with
  | EmptyString => false
  | String _ r => contains needle r
  end.

(** Whitespace of [str.strip] and of the regex class [\s], ASCII range. *)
Definition is_space (c : ascii) : bool :=
  let n := nat_of_ascii c in
  ((Nat.leb 9 n && Nat.leb n 13) || (Nat.leb 28 n && Nat.leb n 32))%bool.

Fixpoint lstrip (s : string) : string :=
  match s with
  | String c r => if is_space c then lstrip r else s
  | EmptyString => s
  end.

Definition rev_string (s : string) : string :=
  string_of_list_ascii (rev (list_ascii_of_string s)).

Definition strip (s : string) : string :=
  rev_string (lstrip (rev_string (lstrip s))).

Definition digit_of (c : ascii) : option Z :=
  let n := nat_of_ascii c in
  if (Nat.leb 48 n && Nat.leb n 57)%bool then Some (Z.of_nat (n - 48)) else None.

Definition is_digit (c : ascii) : bool :=
  match digit_of c with Some _ => true | None => false end.

(** A run of decimal digits at the head of [s]: the number read so far
    ([acc]), how many digits were read ([n]) and the rest. With [us], one
    underscore between two digits is skipped, as [int] and [float] do. *)
Fixpoint digits_from (us : bool) (s : string) (acc : Z) (n : nat) : Z * nat * string :=
  match s with
  | String c r =>
      match digit_of c with
      | Some d => digits_from us r (acc * 10 + d) (S n)
      | None =>
          if (us && Ascii.eqb c "_" && Nat.ltb 0 n)%bool then
            match r with
            | String c' r' =>
                match digit_of c' with
                | Some d => digits_from us r' (acc * 10 + d) (S n)
                | None => (acc, n, s)
                end
            | EmptyString => (acc, n, s)
            end
          else (acc, n, s)
      end
  | EmptyString => (acc, n, s)
  end.

Definition hex_of (c : ascii) : option Z :=
  let n := nat_of_ascii c in
  if (Nat.leb 48 n && Nat.leb n 57)%bool then Some (Z.of_nat (n - 48))
  else if (Nat.leb 65 n && Nat.leb n 70)%bool then Some (Z.of_nat (n - 55))
  else if (Nat.leb 97 n && Nat.leb n 102)%bool then Some (Z.of_nat (n - 87))
  else None.

Definition byte_of (z : Z) : ascii := ascii_of_nat (Z.to_nat z).

(** The UTF-8 bytes of a code point. *)
Definition utf8 (cp : Z) : string :=
  if cp <? 128 then String (byte_of cp) EmptyString
  else if cp <? 2048 then
    String (byte_of (192 + cp / 64)) (String (byte_of (128 + cp mod 64)) EmptyString)
  else if cp <? 65536 then
    String (byte_of (224 + cp / 4096))
      (String (byte_of (128 + (cp / 64) mod 64))
         (String (byte_of (128 + cp mod 64)) EmptyString))
  else
    String (byte_of (240 + cp / 262144))
      (String (byte_of (128 + (cp / 4096) mod 64))
         (String (byte_of (128 + (cp / 64) mod 64))
            (String (byte_of (128 + cp mod 64)) EmptyString))).

End Text.

(** ** Python values *)

Module Py.
Import Text.

(** The exceptions the modelled code can meet. [DriverError] stands for
    whatever the browser driver or the parent class raises. *)
Inductive exn : Type :=
| AttributeError
| TypeError
| ValueError
| KeyError
| IndexError
| OverflowError
| JSONDecodeError
| RecursionError
| DriverError (msg : string).

(** What a call does: return or raise. *)
Inductive outcome (A : Type) : Type :=
| Ok (a : A)
| Raise (e : exn).

Arguments Ok {A} a.
Arguments Raise {A} e.

Definition obind {A B} (o : outcome A) (k : A -> outcome B) : outcome B :=
  match o with
  | Ok a => k a
  | Raise e => Raise e
  end.

Inductive value : Type :=
| VNone
| VBool (b : bool)
| VInt (z : Z)
| VFloat (f : float)
| VStr (s : string)
| VList (l : list value)
| VDict (d : list (string * value)).

Definition dict : Type := list (string * value).

(** *** Dicts: association lists in insertion order *)

Fixpoint dict_get (k : string) (d : dict) : option value :=
  match d with
  | [] => None
  | (k', v) :: r => if String.eqb k k' then Some v else dict_get k r
  end.

Definition dict_mem (k : string) (d : dict) : bool :=
  match dict_get k d with Some _ => true | None => false end.

(** [d[k] = v]: the value is replaced in place, a new key goes last. *)
Fixpoint dict_set (k : string) (v : value) (d : dict) : dict :=
  match d with
  | [] => [(k, v)]
  | (k', v') :: r =>
      if String.eqb k k' then (k, v) :: r else (k', v') :: dict_set k v r
  end.

(** [d.update(other)]. *)
Definition dict_update (d other : dict) : dict :=
  fold_left (fun acc kv => dict_set (fst kv) (snd kv) acc) other d.

(** A dict has every key once. *)
Definition dict_wf (d : dict) : Prop := NoDup (map fst d).

(** *** Floats *)

Definition prec : Z := 53.
Definition emax : Z := 1024.

(** [float(z)] for an int: the nearest binary64, [OverflowError] past the
    largest one. *)
Definition float_of_Z (z : Z) : outcome float :=
  match binary_normalize prec emax z 0 false with
  | S754_infinity _ => Raise OverflowError
  | sf => Ok (SF2Prim sf)
  end.

(** [int(f)] for a float: truncation towards zero. *)
Definition Z_of_float (f : float) : outcome Z :=
  match Prim2SF f with
  | S754_zero _ => Ok 0
  | S754_infinity _ => Raise OverflowError
  | S754_nan => Raise ValueError
  | S754_finite s m e =>
      let a := if 0 <=? e then Z.shiftl (Z.pos m) e else Z.shiftr (Z.pos m) (- e) in
      Ok (if s then - a else a)
  end.

(** [f == z] for a float and an int, compared exactly. *)
Definition float_eq_Z (f : float) (z : Z) : bool :=
  match Prim2SF f with
  | S754_zero _ => z =? 0
  | S754_finite s m e =>
      let a := if s then Z.neg m else Z.pos m in
      if 0 <=? e then z =? Z.shiftl a e else Z.shiftl z (- e) =? a
  | _ => false
  end.

(** The binary64 nearest to [m * 10^e10] (ties to even), signed by [neg]:
    what reading a decimal literal gives. For a negative exponent the
    quotient is taken with guard bits and a sticky bit before rounding. *)
Definition float_of_decimal (neg : bool) (m e10 : Z) : float :=
  let sgn (x : Z) := if neg then - x else x in
  if m =? 0 then SF2Prim (S754_zero neg)
  else if 0 <=? e10 then SF2Prim (binary_normalize prec emax (sgn (m * 10 ^ e10)) 0 neg)
  else
    let den := 10 ^ (- e10) in
    let k := Z.max 0 (64 + Z.log2 den - Z.log2 m) in
    let q := Z.shiftl m k / den in
    let r := Z.shiftl m k mod den in
    let q' := 2 * q + (if r =? 0 then 0 else 1) in
    SF2Prim (binary_normalize prec emax (sgn q') (- k - 1) neg).

(** *** Truth, equality, membership *)

(** [bool(v)]. *)
Definition truthy (v : value) : bool :=
  match v with
  | VNone => false
  | VBool b => b
  | VInt z => negb (z =? 0)
  | VFloat f => negb (PrimFloat.eqb f 0%float)
  | VStr s => negb (String.eqb s "")
  | VList l => match l with [] => false | _ => true end
  | VDict d => match d with [] => false | _ => true end
  end.

(** The number a bool, int or float stands for in a comparison. *)
Definition as_number (v : value) : option (Z + float) :=
  match v with
  | VBool b => Some (inl (Z.b2z b))
  | VInt z => Some (inl z)
  | VFloat f => Some (inr f)
  | _ => None
  end.

Definition number_eq (a b : Z + float) : bool :=
  match a, b with
  | inl x, inl y => x =? y
  | inl x, inr f => float_eq_Z f x
  | inr f, inl x => float_eq_Z f x
  | inr f, inr g => PrimFloat.eqb f g
  end.

Definition eq_number (a : Z + float) (b : value) : bool :=
  match as_number b with
  | Some n => number_eq a n
  | None => false
  end.

(** [a == b]. Containers are compared by their items, without the
    identity shortcut of the interpreter. *)
Fixpoint py_eq (a b : value) : bool :=
  match a with
  | VNone => match b with VNone => true | _ => false end
  | VBool x => eq_number (inl (Z.b2z x)) b
  | VInt x => eq_number (inl x) b
  | VFloat x => eq_number (inr x) b
  | VStr s => match b with VStr t => String.eqb s t | _ => false end
  | VList la =>
      match b with
      | VList lb =>
          (fix go (xs ys : list value) : bool :=
             match xs, ys with
             | [], [] => true
             | x :: xs', y :: ys' => py_eq x y && go xs' ys'
             | _, _ => false
             end) la lb
      | _ => false
      end
  | VDict da =>
      match b with
      | VDict db =>
          Nat.eqb (List.length da) (List.length db) &&
          (fix go (xs : dict) : bool :=
             match xs with
             | [] => true
             | (k, v) :: xs' =>
                 match dict_get k db with
                 | Some w => py_eq v w && go xs'
                 | None => false
                 end
             end) da
      | _ => false
      end
  end.

(** [a != b]. *)
Definition py_ne (a b : value) : bool := negb (py_eq a b).

(** [needle in v] for a str [needle]: substring of a str, item of a list,
    key of a dict; the other values are not containers. *)
Definition py_in (needle : string) (v : value) : outcome bool :=
  match v with
  | VStr s => Ok (contains needle s)
  | VList l => Ok (existsb (py_eq (VStr needle)) l)
  | VDict d => Ok (dict_mem needle d)
  | _ => Raise TypeError
  end.

(** [v[k]] for a str key. *)
Definition py_index (v : value) (k : string) : outcome value :=
  match v with
  | VDict d => match dict_get k d with Some x => Ok x | None => Raise KeyError end
  | _ => Raise TypeError
  end.

(** [v.get(k, default)]: only a dict has the method. *)
Definition py_get (v : value) (k : string) (default : value) : outcome value :=
  match v with
  | VDict d => Ok (match dict_get k d with Some x => x | None => default end)
  | _ => Raise AttributeError
  end.

(** [v.lower()]: only a str has the method. *)
Definition py_lower (v : value) : outcome string :=
  match v with
  | VStr s => Ok (lower s)
  | _ => Raise AttributeError
  end.

(** *** Conversions *)

Definition take_sign (s : string) : bool * string :=
  match s with
  | String c r =>
      if Ascii.eqb c "-" then (true, r)
      else if Ascii.eqb c "+" then (false, r)
      else (false, s)
  | EmptyString => (false, s)
  end.

(** [int(s)] for a str: blanks around, a sign, decimal digits. *)
Definition int_of_string (s : string) : outcome Z :=
  let '(neg, r) := take_sign (strip s) in
  match digits_from true r 0 0%nat with
  | (n, S _, EmptyString) => Ok (if neg then - n else n)
  | _ => Raise ValueError
  end.

(** The exponent part of a decimal literal, when there is one. *)
Definition exponent_from (us : bool) (s : string) : option (Z * string) :=
  match s with
  | String c r =>
      if (Ascii.eqb c "e" || Ascii.eqb c "E")%bool then
        let '(eneg, r') := take_sign r in
        match digits_from us r' 0 0%nat with
        | (e, S _, rest) => Some (if eneg then - e else e, rest)
        | _ => None
        end
      else None
  | EmptyString => None
  end.

(** [float(s)] for a str: blanks around, a sign, then [inf], [infinity],
    [nan] or a decimal literal with digits on one side of the point at
    least. *)
Definition float_of_string (s : string) : outcome float :=
  let '(neg, r) := take_sign (strip s) in
  let word := lower r in
  if (String.eqb word "inf" || String.eqb word "infinity")%bool
  then Ok (SF2Prim (S754_infinity neg))
  else if String.eqb word "nan" then Ok (SF2Prim S754_nan)
  else
    let '(ip, ni, r1) := digits_from true r 0 0%nat in
    let '(m, nf, r2) :=
      match r1 with
      | String c r' =>
          if Ascii.eqb c "." then
            let '(m, n, rest) := digits_from true r' ip 0%nat in (m, n, rest)
          else (ip, 0%nat, r1)
      | EmptyString => (ip, 0%nat, r1)
      end in
    match (ni + nf)%nat with
    | O => Raise ValueError
    | S _ =>
        match exponent_from true r2, r2 with
        | Some (e, EmptyString), _ => Ok (float_of_decimal neg m (e - Z.of_nat nf))
        | None, EmptyString => Ok (float_of_decimal neg m (- Z.of_nat nf))
        | _, _ => Raise ValueError
        end
    end.

(** [float(v)]. *)
Definition py_float (v : value) : outcome value :=
  match v with
  | VFloat f => Ok (VFloat f)
  | VInt z => obind (float_of_Z z) (fun f => Ok (VFloat f))
  | VBool b => Ok (VFloat (if b then 1%float else 0%float))
  | VStr s => obind (float_of_string s) (fun f => Ok (VFloat f))
  | _ => Raise TypeError
  end.

(** [int(v)]. *)
Definition py_int (v : value) : outcome value :=
  match v with
  | VInt z => Ok (VInt z)
  | VBool b => Ok (VInt (Z.b2z b))
  | VFloat f => obind (Z_of_float f) (fun z => Ok (VInt z))
  | VStr s => obind (int_of_string s) (fun z => Ok (VInt z))
  | _ => Raise TypeError
  end.

(** [v is not None]. *)
Definition is_not_none (v : value) : bool :=
  match v with VNone => false | _ => true end.

End Py.

(** ** The JSON decoder ([json.loads]) *)

Module Json.
Import Text Py.

Definition is_ws (c : ascii) : bool :=
  (Ascii.eqb c " " || Ascii.eqb c (ascii_of_nat 9) ||
   Ascii.eqb c (ascii_of_nat 10) || Ascii.eqb c (ascii_of_nat 13))%bool.

Fixpoint skip_ws (s : string) : string :=
  match s with
  | String c r => if is_ws c then skip_ws r else s
  | EmptyString => s
  end.

Definition hex4 (a b c d : ascii) : option Z :=
  match hex_of a, hex_of b, hex_of c, hex_of d with
  | Some x, Some y, Some z, Some w => Some (((x * 16 + y) * 16 + z) * 16 + w)
  | _, _, _, _ => None
  end.

Definition is_high (cp : Z) : bool := (55296 <=? cp) && (cp <=? 56319).
Definition is_low (cp : Z) : bool := (56320 <=? cp) && (cp <=? 57343).

Definition prepend (t : string) (o : outcome (string * string)) : outcome (string * string) :=
  obind o (fun p => Ok (t ++ fst p, snd p)).

Definition one (c : ascii) : string := String c EmptyString.

(** The text of a string literal after its opening quote, and the rest
    after its closing quote. Control characters are refused, an escaped
    code point is written in UTF-8, a surrogate pair is joined. *)
Fixpoint string_body (s : string) : outcome (string * string) :=
  match s with
  | EmptyString => Raise JSONDecodeError
  | String c r =>
      if Ascii.eqb c dquote then Ok (EmptyString, r)
      else if Ascii.eqb c "\" then
        match r with
        | EmptyString => Raise JSONDecodeError
        | String e r1 =>
            if Ascii.eqb e dquote then prepend (one dquote) (string_body r1)
            else if Ascii.eqb e "\" then prepend "\" (string_body r1)
            else if Ascii.eqb e "/" then prepend "/" (string_body r1)
            else if Ascii.eqb e "b" then prepend (one (ascii_of_nat 8)) (string_body r1)
            else if Ascii.eqb e "f" then prepend (one (ascii_of_nat 12)) (string_body r1)
            else if Ascii.eqb e "n" then prepend (one (ascii_of_nat 10)) (string_body r1)
            else if Ascii.eqb e "r" then prepend (one (ascii_of_nat 13)) (string_body r1)
            else if Ascii.eqb e "t" then prepend (one (ascii_of_nat 9)) (string_body r1)
            else if Ascii.eqb e "u" then
              match r1 with
              | String h1 (String h2 (String h3 (String h4 r2))) =>
                  match hex4 h1 h2 h3 h4 with
                  | None => Raise JSONDecodeError
                  | Some cp =>
                      match r2 with
                      | String b (String u (String l1 (String l2 (String l3 (String l4 r3))))) =>
                          match hex4 l1 l2 l3 l4 with
                          | Some lo =>
                              if (is_high cp && Ascii.eqb b "\" && Ascii.eqb u "u" && is_low lo)%bool
                              then prepend (utf8 (65536 + (cp - 55296) * 1024 + (lo - 56320)))
                                     (string_body r3)
                              else prepend (utf8 cp) (string_body r2)
                          | None => prepend (utf8 cp) (string_body r2)
                          end
                      | _ => prepend (utf8 cp) (string_body r2)
                      end
                  end
              | _ => Raise JSONDecodeError
              end
            else Raise JSONDecodeError
        end
      else if Nat.ltb (nat_of_ascii c) 32 then Raise JSONDecodeError
      else prepend (one c) (string_body r)
  end.

(** A number at the head of [s]: an int when it has neither a fraction
    nor an exponent, else a float. *)
Definition number_from (s : string) : option (value * string) :=
  let '(neg, r) :=
    match s with
    | String c r' => if Ascii.eqb c "-" then (true, r') else (false, s)
    | EmptyString => (false, s)
    end in
  let int_part :=
    match r with
    | String c r' =>
        if Ascii.eqb c "0" then Some (0, r')
        else if is_digit c then
          let '(ip, _, r1) := digits_from false r 0 0%nat in Some (ip, r1)
        else None
    | EmptyString => None
    end in
  match int_part with
  | None => None
  | Some (ip, r1) =>
      let frac :=
        match r1 with
        | String c r2 =>
            if Ascii.eqb c "." then
              match digits_from false r2 ip 0%nat with
              | (m, S n, r3) => Some (m, S n, r3)
              | _ => None
              end
            else None
        | EmptyString => None
        end in
      let '(m, nf, r3, has_frac) :=
        match frac with
        | Some (m, nf, r3) => (m, nf, r3, true)
        | None => (ip, 0%nat, r1, false)
        end in
      match exponent_from false r3 with
      | Some (e, r4) => Some (VFloat (float_of_decimal neg m (e - Z.of_nat nf)), r4)
      | None =>
          if has_frac then Some (VFloat (float_of_decimal neg m (- Z.of_nat nf)), r3)
          else Some (VInt (if neg then - ip else ip), r3)
      end
  end.

(** The constants of the decoder, then numbers. *)
Definition atom_from (s : string) : outcome (value * string) :=
  match strip_prefix "null" s with
  | Some r => Ok (VNone, r)
  | None =>
  match strip_prefix "true" s with
  | Some r => Ok (VBool true, r)
  | None =>
  match strip_prefix "false" s with
  | Some r => Ok (VBool false, r)
  | None =>
  match strip_prefix "NaN" s with
  | Some r => Ok (VFloat (SF2Prim S754_nan), r)
  | None =>
  match strip_prefix "Infinity" s with
  | Some r => Ok (VFloat (SF2Prim (S754_infinity false)), r)
  | None =>
  match strip_prefix "-Infinity" s with
  | Some r => Ok (VFloat (SF2Prim (S754_infinity true)), r)
  | None =>
  match number_from s with
  | Some p => Ok p
  | None => Raise JSONDecodeError
  end end end end end end end.

(** One JSON value at the head of [s]. The fuel bounds the depth of the
    calls; running out of it is the interpreter's [RecursionError]. *)
Fixpoint value_from (fuel : nat) (s : string) {struct fuel} : outcome (value * string) :=
  match fuel with
  | O => Raise RecursionError
  | S fuel' =>
      match s with
      | EmptyString => Raise JSONDecodeError
      | String c r =>
          if Ascii.eqb c dquote then
            obind (string_body r) (fun p => Ok (VStr (fst p), snd p))
          else if Ascii.eqb c "{" then
            match skip_ws r with
            | String c' r' =>
                if Ascii.eqb c' "}" then Ok (VDict [], r')
                else members_from fuel' (skip_ws r) []
            | EmptyString => Raise JSONDecodeError
            end
          else if Ascii.eqb c "[" then
            match skip_ws r with
            | String c' r' =>
                if Ascii.eqb c' "]" then Ok (VList [], r')
                else elements_from fuel' (skip_ws r) []
            | EmptyString => Raise JSONDecodeError
            end
          else atom_from s
      end
  end
with elements_from (fuel : nat) (s : string) (acc : list value) {struct fuel}
  : outcome (value * string) :=
  match fuel with
  | O => Raise RecursionError
  | S fuel' =>
      obind (value_from fuel' s) (fun p =>
        match skip_ws (snd p) with
        | String c r =>
            if Ascii.eqb c "]" then Ok (VList (rev (fst p :: acc)), r)
            else if Ascii.eqb c "," then elements_from fuel' (skip_ws r) (fst p :: acc)
            else Raise JSONDecodeError
        | EmptyString => Raise JSONDecodeError
        end)
  end
with members_from (fuel : nat) (s : string) (acc : dict) {struct fuel}
  : outcome (value * string) :=
  match fuel with
  | O => Raise RecursionError
  | S fuel' =>
      match s with
      | String q r =>
          if Ascii.eqb q dquote then
            obind (string_body r) (fun k =>
              match skip_ws (snd k) with
              | String colon r1 =>
                  if Ascii.eqb colon ":" then
                    obind (value_from fuel' (skip_ws r1)) (fun p =>
                      let acc' := dict_set (fst k) (fst p) acc in
                      match skip_ws (snd p) with
                      | String c r2 =>
                          if Ascii.eqb c "}" then Ok (VDict acc', r2)
                          else if Ascii.eqb c "," then members_from fuel' (skip_ws r2) acc'
                          else Raise JSONDecodeError
                      | EmptyString => Raise JSONDecodeError
                      end)
                  else Raise JSONDecodeError
              | EmptyString => Raise JSONDecodeError
              end)
          else Raise JSONDecodeError
      | EmptyString => Raise JSONDecodeError
      end
  end.

(** [json.loads(s)] for a str: one value, blanks around it, nothing else. *)
Definition loads_string (s : string) : outcome value :=
  obind (value_from (S (2 * String.length s)) (skip_ws s)) (fun p =>
    match skip_ws (snd p) with
    | EmptyString => Ok (fst p)
    | String _ _ => Raise JSONDecodeError
    end).

(** [json.loads(v)]: what is not a str is a [TypeError]. *)
Definition loads (v : value) : outcome value :=
  match v with
  | VStr s => loads_string s
  | _ => Raise TypeError
  end.

End Json.

(** ** The regular expressions of the extractors ([re.search]) *)

Module Re.
Import Text Py.

(** The run of characters other than [stop] at the head of [s], when a
    [stop] ends it, and the rest after that [stop]. *)
Fixpoint until (stop : ascii) (s : string) : option (string * string) :=
  match s with
  | EmptyString => None
  | String c r =>
      if Ascii.eqb c stop then Some (EmptyString, r)
      else match until stop r with
           | Some (run, rest) => Some (String c run, rest)
           | None => None
           end
  end.

(** The leftmost position of [s] at which [at_head] matches. *)
Fixpoint search {A} (at_head : string -> option A) (s : string) : option A :=
  match at_head s with
  | Some x => Some x
  | None =>
      match s with
      | EmptyString => None
      | String _ r => search at_head r
      end
  end.

(** The pattern of [desc_pattern]: the literal key and content marker,
    then group 1, the characters up to the next double quote. *)
Definition desc_prefix : string := dq "'description','content':'".

Definition desc_at (s : string) : option string :=
  match strip_prefix desc_prefix s with
  | Some r => option_map fst (until dquote r)
  | None => None
  end.

(** The pattern after the marketplace host: group 1 is the path segment,
    one character at least, that a slash ends. *)
Definition provider_at (s : string) : option string :=
  match strip_prefix "rapidapi.com/" s with
  | Some r =>
      match until "/" r with
      | Some (String c run, _) => Some (String c run)
      | _ => None
      end
  | None => None
  end.

(** The patterns of the array literals: the quoted key and a colon,
    blanks, then group 1 from the opening bracket to the first closing
    bracket (the shortest match, newlines included). *)
Definition array_at (key : string) (s : string) : option string :=
  match strip_prefix (dq "'" ++ key ++ dq "':") s with
  | Some r =>
      match lstrip r with
      | String c r' =>
          if Ascii.eqb c "[" then
            option_map (fun p => String "[" (fst p ++ "]")) (until "]" r')
          else None
      | EmptyString => None
      end
  | None => None
  end.

(** [re.search(pattern, v)]: the group 1 of the match, and a [TypeError]
    for what is not a str. *)
Definition search_in (at_head : string -> option string) (v : value)
  : outcome (option string) :=
  match v with
  | VStr s => Ok (search at_head s)
  | _ => Raise TypeError
  end.

End Re.

(** ** The state and exception monad *)

Module Monad.
Import Py.

(** A computation over a state [S]: the state it leaves is returned with
    the outcome, also when it raises. *)
Definition ST (S A : Type) : Type := S -> outcome A * S.

Definition ret {S A} (a : A) : ST S A := fun s => (Ok a, s).

Definition bind {S A B} (m : ST S A) (k : A -> ST S B) : ST S B :=
  fun s =>
    match m s with
    | (Ok a, s') => k a s'
    | (Raise e, s') => (Raise e, s')
    end.

Definition raise {S A} (e : exn) : ST S A := fun s => (Raise e, s).

(** A pure step that may raise. *)
Definition lift {S A} (o : outcome A) : ST S A := fun s => (o, s).

Definition gets {S A} (f : S -> A) : ST S A := fun s => (Ok (f s), s).

Definition modify {S} (f : S -> S) : ST S unit := fun s => (Ok tt, f s).

(** [try: m except Exception as e: h e]. *)
Definition try_except {S A} (m : ST S A) (h : exn -> ST S A) : ST S A :=
  fun s =>
    match m s with
    | (Ok a, s') => (Ok a, s')
    | (Raise e, s') => h e s'
    end.

(** [try: m except json.JSONDecodeError as e: h e]. *)
Definition try_json {S A} (m : ST S A) (h : exn -> ST S A) : ST S A :=
  fun s =>
    match m s with
    | (Raise JSONDecodeError, s') => h JSONDecodeError s'
    | r => r
    end.

(** A computation on the second component of a pair of states. *)
Definition on_snd {L S A} (m : ST S A) : ST (L * S) A :=
  fun ls =>
    match m (snd ls) with
    | (r, s') => (r, (fst ls, s'))
    end.

Definition on_fst {L S A} (m : ST L A) : ST (L * S) A :=
  fun ls =>
    match m (fst ls) with
    | (r, l') => (r, (l', snd ls))
    end.

End Monad.

Declare Scope monad_scope.
Delimit Scope monad_scope with monad.
Notation "x <- c ;; k" := (Monad.bind c (fun x => k))
  (at level 61, c at next level, right associativity) : monad_scope.
Notation "c ;; k" := (Monad.bind c (fun _ => k))
  (at level 61, right associativity) : monad_scope.
Notation "'let?' x := c 'in' k" := (Py.obind c (fun x => k))
  (at level 61, x name, c at next level, right associativity) : monad_scope.
Local Open Scope monad_scope.

(** ** The client *)

Module Client.
Import Text Py Monad.

(** The two callbacks the client registers with the driver. *)
Inductive handler : Type :=
| RequestHandler
| ResponseHandler.

(** A CDP event delivered by the driver: the callback it calls and the
    message it passes. *)
Inductive event : Type :=
| OnRequest (message : value)
| OnResponse (message : value).

(** The calls the client makes outside itself: the driver's methods, the
    parent class's [_get_chrome_driver] and [assess_api], and
    [asyncio.sleep]. The in-page script is a constant of the source. *)
Inductive call : Type :=
| GetChromeDriver
| ExecuteCdpCmd (cmd : string) (params : value)
| AddCdpListener (event_name : string) (callback : handler)
| DriverGet (url : string)
| ExecuteScript
| Sleep (seconds : Z)
| AssessApi (url : string).

(** The collaborators. [external c w] is what the call [c] does in the
    world [w]: its outcome, the events delivered while it ran and the world
    after it. [has_driver w] is the truth of [self.driver]. *)
Class Driver : Type := {
  World : Type;
  external : call -> World -> outcome value * list event * World;
  has_driver : World -> bool
}.

Section WithDriver.
Context {D : Driver}.

(** The fields of [EnhancedChromeClient] set by [__init__], the world, and
    the log of the external calls made so far (oldest first). *)
Record client : Type := mkClient {
  network_monitoring : bool;
  network_requests : list value;
  network_responses : list value;
  max_network_entries : Z;
  world : World;
  calls : list call
}.

Definition M (A : Type) : Type := ST client A.

(** [__init__], on a world. *)
Definition init (w : World) : client :=
  mkClient false [] [] 1000 w [].

Definition set_monitoring (b : bool) : M unit :=
  modify (fun s => mkClient b (network_requests s) (network_responses s)
                     (max_network_entries s) (world s) (calls s)).

Definition set_requests (l : list value) : M unit :=
  modify (fun s => mkClient (network_monitoring s) l (network_responses s)
                     (max_network_entries s) (world s) (calls s)).

Definition set_responses (l : list value) : M unit :=
  modify (fun s => mkClient (network_monitoring s) (network_requests s) l
                     (max_network_entries s) (world s) (calls s)).

Definition set_world (w : World) (c : call) : M unit :=
  modify (fun s => mkClient (network_monitoring s) (network_requests s)
                     (network_responses s) (max_network_entries s) w
                     (calls s ++ [c])).

(** [l.pop(0)]. *)
Definition pop0 (l : list value) : outcome (list value) :=
  match l with
  | [] => Raise IndexError
  | _ :: r => Ok r
  end.

(** *** Event normalizer *)

(** [o.get(sub, {}).get(k, default)]. *)
Definition nested_get (o : value) (sub k : string) (default : value) : outcome value :=
  let? inner := py_get o sub (VDict []) in
  py_get inner k default.

(** [o.get(sub, {}).get(k, default) if o.get(sub) else o.get(k, default)]. *)
Definition nested_or_top (o : value) (sub k : string) (default : value) : outcome value :=
  let? present := py_get o sub VNone in
  if truthy present then nested_get o sub k default else py_get o k default.

(** [isinstance(message, dict) and 'params' in message]. *)
Definition is_cdp_envelope (message : value) : bool :=
  match message with
  | VDict m => dict_mem "params" m
  | _ => false
  end.

(** The record built by [_network_request_handler]. *)
Definition request_data (message : value) : outcome value :=
  if is_cdp_envelope message then
    let? params := py_index message "params" in
    let? request_id := py_get params "requestId" VNone in
    let? url := nested_get params "request" "url" VNone in
    let? method := nested_get params "request" "method" VNone in
    let? headers := nested_get params "request" "headers" (VDict []) in
    let? timestamp := py_get params "timestamp" VNone in
    let? type := py_get params "type" VNone in
    let? post_data := nested_get params "request" "postData" VNone in
    Ok (VDict [("requestId", request_id); ("url", url); ("method", method);
               ("headers", headers); ("timestamp", timestamp); ("type", type);
               ("postData", post_data)])
  else
    let? request_id := py_get message "requestId" VNone in
    let? url := nested_or_top message "request" "url" VNone in
    let? method := nested_or_top message "request" "method" VNone in
    let? headers := nested_or_top message "request" "headers" (VDict []) in
    let? timestamp := py_get message "timestamp" VNone in
    let? type := py_get message "type" VNone in
    let? post_data := nested_or_top message "request" "postData" VNone in
    Ok (VDict [("requestId", request_id); ("url", url); ("method", method);
               ("headers", headers); ("timestamp", timestamp); ("type", type);
               ("postData", post_data)]).

(** The record built by [_network_response_handler]. *)
Definition response_data (message : value) : outcome value :=
  if is_cdp_envelope message then
    let? params := py_index message "params" in
    let? request_id := py_get params "requestId" VNone in
    let? url := nested_get params "response" "url" VNone in
    let? status := nested_get params "response" "status" VNone in
    let? status_text := nested_get params "response" "statusText" VNone in
    let? headers := nested_get params "response" "headers" (VDict []) in
    let? mime_type := nested_get params "response" "mimeType" VNone in
    let? timestamp := py_get params "timestamp" VNone in
    let? type := py_get params "type" VNone in
    Ok (VDict [("requestId", request_id); ("url", url); ("status", status);
               ("statusText", status_text); ("headers", headers);
               ("mimeType", mime_type); ("timestamp", timestamp); ("type", type)])
  else
    let? request_id := py_get message "requestId" VNone in
    let? url := nested_or_top message "response" "url" VNone in
    let? status := nested_or_top message "response" "status" VNone in
    let? status_text := nested_or_top message "response" "statusText" VNone in
    let? headers := nested_or_top message "response" "headers" (VDict []) in
    let? mime_type := nested_or_top message "response" "mimeType" VNone in
    let? timestamp := py_get message "timestamp" VNone in
    let? type := py_get message "type" VNone in
    Ok (VDict [("requestId", request_id); ("url", url); ("status", status);
               ("statusText", status_text); ("headers", headers);
               ("mimeType", mime_type); ("timestamp", timestamp); ("type", type)]).

(** *** Capture buffer *)

(** [_network_request_handler]: under the lock, the oldest record leaves
    first when the buffer is at the cap, then the message is projected and
    the record appended. Whatever is raised is logged and dropped. *)
Definition _network_request_handler (message : value) : M unit :=
  try_except
    (requests <- gets network_requests ;;
     cap <- gets max_network_entries ;;
     (if Z.of_nat (List.length requests) >=? cap
      then popped <- lift (pop0 requests) ;; set_requests popped
      else ret tt) ;;
     record <- lift (request_data message) ;;
     requests' <- gets network_requests ;;
     set_requests (requests' ++ [record]))
    (fun _ => ret tt).

(** [_network_response_handler]. *)
Definition _network_response_handler (message : value) : M unit :=
  try_except
    (responses <- gets network_responses ;;
     cap <- gets max_network_entries ;;
     (if Z.of_nat (List.length responses) >=? cap
      then popped <- lift (pop0 responses) ;; set_responses popped
      else ret tt) ;;
     record <- lift (response_data message) ;;
     responses' <- gets network_responses ;;
     set_responses (responses' ++ [record]))
    (fun _ => ret tt).

(** The driver calls the callback of each event, one after the other. *)
Definition dispatch (e : event) : M unit :=
  match e with
  | OnRequest message => _network_request_handler message
  | OnResponse message => _network_response_handler message
  end.

Fixpoint deliver (events : list event) : M unit :=
  match events with
  | [] => ret tt
  | e :: rest => dispatch e ;; deliver rest
  end.

(** An external call: the world answers, the call is logged, and the
    events that came meanwhile go through the handlers. *)
Definition call_out (c : call) : M value :=
  fun self =>
    match external c (world self) with
    | (r, events, w) =>
        (r, snd (deliver events (snd (set_world w c self))))
    end.

(** [clear_network_data]. *)
Definition clear_network_data : M unit :=
  set_requests [] ;; set_responses [].

(** The list comprehension of [get_network_responses]. *)
Fixpoint filter_by_url (url_filter : string) (responses : list value)
  : outcome (list value) :=
  match responses with
  | [] => Ok []
  | resp :: rest =>
      let? url := py_get resp "url" (VStr "") in
      let? low := py_lower url in
      let? kept := filter_by_url url_filter rest in
      Ok (if contains (lower url_filter) low then resp :: kept else kept)
  end.

(** [get_network_responses(url_filter)]; [None] is the default. *)
Definition get_network_responses (url_filter : option string) : M (list value) :=
  responses <- gets network_responses ;;
  match url_filter with
  | Some f =>
      if truthy (VStr f) then lift (filter_by_url f responses) else ret responses
  | None => ret responses
  end.

(** *** Monitoring controller *)

(** [start_network_monitoring]. *)
Definition start_network_monitoring : M bool :=
  monitoring <- gets network_monitoring ;;
  if monitoring then ret true
  else
    try_except
      (_ <- call_out GetChromeDriver ;;
       _ <- call_out (ExecuteCdpCmd "Network.enable" (VDict [])) ;;
       _ <- call_out (AddCdpListener "Network.requestWillBeSent" RequestHandler) ;;
       _ <- call_out (AddCdpListener "Network.responseReceived" ResponseHandler) ;;
       set_monitoring true ;;
       ret true)
      (fun _ => ret false).

(** [stop_network_monitoring]. *)
Definition stop_network_monitoring : M bool :=
  monitoring <- gets network_monitoring ;;
  if negb monitoring then ret true
  else
    try_except
      (driver <- gets (fun s => has_driver (world s)) ;;
       (if driver
        then _ <- call_out (ExecuteCdpCmd "Network.disable" (VDict [])) ;; ret tt
        else ret tt) ;;
       set_monitoring false ;;
       ret true)
      (fun _ => ret false).

(** *** Body fetcher *)

(** [get_response_body(request_id)]. Without a driver the function falls
    off its end and returns [None]. *)
Definition get_response_body (request_id : value) : M value :=
  monitoring <- gets network_monitoring ;;
  if negb monitoring then ret VNone
  else
    try_except
      (driver <- gets (fun s => has_driver (world s)) ;;
       if driver then
         result <- call_out (ExecuteCdpCmd "Network.getResponseBody"
                               (VDict [("requestId", request_id)])) ;;
         lift (py_get result "body" VNone)
       else ret VNone)
      (fun _ => ret VNone).

(** *** Payload extractors *)

(** An extractor runs over its local dict [enhanced_data] and the client:
    what an iteration wrote to the dict before it raised is kept. *)
Definition X (A : Type) : Type := ST (dict * client) A.

(** [enhanced_data[k] = v]. *)
Definition set_field (k : string) (v : value) : X unit :=
  on_fst (modify (dict_set k v)).

(** [await self.get_response_body(request_id)]. *)
Definition fetch_body (request_id : value) : X value :=
  on_snd (get_response_body request_id).

(** An extractor returns its dict, whatever happened in its loop. *)
Definition run_extractor (loop : X unit) : M dict :=
  fun self =>
    match try_except loop (fun _ => ret tt) ([], self) with
    | (_, (enhanced_data, self')) => (Ok enhanced_data, self')
    end.

(** The inner [try] of [_extract_rsc_data], for one body. The two calls
    of [url.lower()] in the last test give the same str and are one here. *)
Definition rsc_parse (url body : value) : X unit :=
  desc_match <- lift (Re.search_in Re.desc_at body) ;;
  match desc_match with
  | Some group1 => set_field "description" (VStr group1)
  | None => ret tt
  end ;;
  on_marketplace <- lift (py_in "rapidapi.com" url) ;;
  (if on_marketplace then
     provider_match <- lift (Re.search_in Re.provider_at url) ;;
     match provider_match with
     | Some group1 => set_field "provider" (VStr group1)
     | None => ret tt
     end
   else ret tt) ;;
  low <- lift (py_lower url) ;;
  (if contains "pricing" low then
     pricing_match <- lift (Re.search_in (Re.array_at "plans") body) ;;
     match pricing_match with
     | Some group1 =>
         try_json
           (plans_data <- lift (Json.loads (VStr group1)) ;;
            set_field "pricing" (VDict [("tiers", plans_data)]))
           (fun _ => ret tt)
     | None => ret tt
     end
   else ret tt) ;;
  low' <- lift (py_lower url) ;;
  if (contains "endpoint" low' || contains "playground" low')%bool then
    endpoint_match <- lift (Re.search_in (Re.array_at "endpoints") body) ;;
    match endpoint_match with
    | Some group1 =>
        try_json
          (endpoints_data <- lift (Json.loads (VStr group1)) ;;
           set_field "endpoints" endpoints_data)
          (fun _ => ret tt)
    | None => ret tt
    end
  else ret tt.

(** The loop of [_extract_rsc_data]. *)
Fixpoint rsc_loop (responses : list value) : X unit :=
  match responses with
  | [] => ret tt
  | response :: rest =>
      request_id <- lift (py_get response "requestId" VNone) ;;
      url <- lift (py_get response "url" (VStr "")) ;;
      wanted <- (if truthy request_id then lift (py_in "/api/" url) else ret false) ;;
      (if wanted then
         body <- fetch_body request_id ;;
         if truthy body
         then try_except (rsc_parse url body) (fun _ => ret tt)
         else ret tt
       else ret tt) ;;
      rsc_loop rest
  end.

(** [_extract_rsc_data(responses)]. *)
Definition _extract_rsc_data (responses : list value) : M dict :=
  run_extractor (rsc_loop responses).

(** [api_info.get(k1) or api_info.get(k2)]. *)
Definition get_or (api_info : value) (k1 k2 : string) : outcome value :=
  let? a := py_get api_info k1 VNone in
  if truthy a then Ok a else py_get api_info k2 VNone.

(** [if api_info.get(k): enhanced_data[k] = api_info[k]]. *)
Definition copy_if_truthy (api_info : value) (k : string) : X unit :=
  present <- lift (py_get api_info k VNone) ;;
  if truthy present then
    v <- lift (py_index api_info k) ;; set_field k v
  else ret tt.

(** [if api_info.get(k) is not None: enhanced_data[k] = conv(api_info[k])]. *)
Definition copy_converted (api_info : value) (k : string)
    (conv : value -> outcome value) : X unit :=
  present <- lift (py_get api_info k VNone) ;;
  if is_not_none present then
    v <- lift (py_index api_info k) ;;
    converted <- lift (conv v) ;;
    set_field k converted
  else ret tt.

(** [k in api_info and api_info[k]], as a truth value. *)
Definition has_truthy (api_info : value) (k : string) : outcome bool :=
  let? present := py_in k api_info in
  if present then
    let? v := py_index api_info k in Ok (truthy v)
  else Ok false.

(** The [if], [elif], [elif] chains for pricing and endpoints: the first
    key is taken when present and truthy, the others when present;
    [wrap] says how the value of a fallback key is stored. *)
Definition copy_first (api_info : value) (field k1 k2 k3 : string)
    (wrap : value -> value) : X unit :=
  first <- lift (has_truthy api_info k1) ;;
  if first then
    v <- lift (py_index api_info k1) ;; set_field field v
  else
    second <- lift (py_in k2 api_info) ;;
    if second then
      v <- lift (py_index api_info k2) ;; set_field field (wrap v)
    else
      third <- lift (py_in k3 api_info) ;;
      if third then
        v <- lift (py_index api_info k3) ;; set_field field (wrap v)
      else ret tt.

Definition tiers (v : value) : value := VDict [("tiers", v)].

(** The projection of a truthy [api_info] in [_extract_graphql_data]. *)
Definition graphql_fields (api_info : value) : X unit :=
  copy_if_truthy api_info "name" ;;
  copy_if_truthy api_info "description" ;;
  provider <- lift (get_or api_info "provider" "providerName") ;;
  (if truthy provider then
     provider' <- lift (get_or api_info "provider" "providerName") ;;
     set_field "provider" provider'
   else ret tt) ;;
  copy_converted api_info "rating" py_float ;;
  copy_converted api_info "reviewCount" py_int ;;
  copy_if_truthy api_info "popularity" ;;
  copy_if_truthy api_info "serviceLevel" ;;
  copy_if_truthy api_info "documentationUrl" ;;
  copy_first api_info "pricing" "pricing" "pricingTiers" "plans" tiers ;;
  copy_first api_info "endpoints" "endpoints" "methods" "operations" (fun v => v).

(** The [if], [elif] chain that looks for the API information under
    [data]; [None] when no branch is taken. *)
Definition select_api_info (data : value) : outcome value :=
  let? has_api := py_in "api" data in
  if has_api then py_index data "api"
  else
    let? has_get_api := py_in "getApi" data in
    if has_get_api then py_index data "getApi"
    else
      let? has_details := py_in "apiDetails" data in
      if has_details then py_index data "apiDetails"
      else
        let? has_marketplace := py_in "marketplace" data in
        let? nested :=
          (if has_marketplace then
             let? marketplace := py_index data "marketplace" in
             py_in "api" marketplace
           else Ok false) in
        if nested then
          let? marketplace := py_index data "marketplace" in
          py_index marketplace "api"
        else Ok VNone.

(** The inner [try] of [_extract_graphql_data], for one body; [true] when
    the loop is left by [break]. *)
Definition graphql_parse (body : value) : X bool :=
  response_data <- lift (Json.loads body) ;;
  has_data <- lift (py_in "data" response_data) ;;
  if has_data then
    data <- lift (py_index response_data "data") ;;
    api_info <- lift (select_api_info data) ;;
    if truthy api_info then
      graphql_fields api_info ;; ret true
    else ret false
  else ret false.

(** The loop of [_extract_graphql_data]. *)
Fixpoint graphql_loop (responses : list value) : X unit :=
  match responses with
  | [] => ret tt
  | response :: rest =>
      request_id <- lift (py_get response "requestId" VNone) ;;
      done <- (if truthy request_id then
                 body <- fetch_body request_id ;;
                 if truthy body
                 then try_json (graphql_parse body) (fun _ => ret false)
                 else ret false
               else ret false) ;;
      if done then ret tt else graphql_loop rest
  end.

(** [_extract_graphql_data(responses)]. *)
Definition _extract_graphql_data (responses : list value) : M dict :=
  run_extractor (graphql_loop responses).

(** *** Assessment orchestrator *)

(** [if extracted: enhanced_data.update(extracted)]. *)
Definition absorb (enhanced_data extracted : dict) : dict :=
  match extracted with
  | [] => enhanced_data
  | _ => dict_update enhanced_data extracted
  end.

(** [result[key] = value]. *)
Definition py_setitem (result : value) (key : string) (v : value) : outcome value :=
  match result with
  | VDict d => Ok (VDict (dict_set key v d))
  | _ => Raise TypeError
  end.

(** The loop [for key, value in enhanced_data.items()] of the merge. *)
Fixpoint merge_items (items : dict) (result : value) : outcome value :=
  match items with
  | [] => Ok result
  | (key, v) :: rest =>
      if truthy v then
        let? existing := py_get result key VNone in
        if py_ne v existing then
          let? result' := py_setitem result key v in
          merge_items rest result'
        else merge_items rest result
      else merge_items rest result
  end.

(** [if enhanced_data: ... else: ...], the second branch only logs. *)
Definition merge (enhanced_data : dict) (result : value) : outcome value :=
  match enhanced_data with
  | [] => Ok result
  | _ => merge_items enhanced_data result
  end.

(** The steps of [assess_api_enhanced] once monitoring has started. *)
Definition capture_and_merge (api_url : string) : M value :=
  _ <- call_out GetChromeDriver ;;
  _ <- call_out (DriverGet api_url) ;;
  _ <- call_out (Sleep 3) ;;
  _ <- call_out ExecuteScript ;;
  _ <- call_out (Sleep 5) ;;
  result <- call_out (AssessApi api_url) ;;
  api_responses <- get_network_responses (Some "/api/") ;;
  graphql_responses <- get_network_responses (Some "graphql") ;;
  enhanced_rsc <-
    match api_responses with
    | [] => ret []
    | _ => rsc_data <- _extract_rsc_data api_responses ;; ret (absorb [] rsc_data)
    end ;;
  enhanced_data <-
    match graphql_responses with
    | [] => ret enhanced_rsc
    | _ =>
        graphql_data <- _extract_graphql_data graphql_responses ;;
        ret (absorb enhanced_rsc graphql_data)
    end ;;
  merged <- lift (merge enhanced_data result) ;;
  _ <- stop_network_monitoring ;;
  ret merged.

(** [assess_api_enhanced(api_url)]. *)
Definition assess_api_enhanced (api_url : string) : M value :=
  try_except
    (clear_network_data ;;
     started <- start_network_monitoring ;;
     if negb started then call_out (AssessApi api_url)
     else capture_and_merge api_url)
    (fun _ =>
       _ <- stop_network_monitoring ;;
       call_out (AssessApi api_url)).

End WithDriver.

Arguments client D : clear implicits.
Arguments M D A : clear implicits.

End Client.

(** ** Notions of the specification *)

Module Spec.
Import Text Py Monad Client.

(** The last [n] entries of a list, in their order. *)
Definition lastn {A} (n : nat) (l : list A) : list A :=
  skipn (List.length l - n) l.

Section WithDriver.
Context {D : Driver}.

(** The buffer a callback writes to. *)
Definition buffer (h : handler) (self : client D) : list value :=
  match h with
  | RequestHandler => network_requests self
  | ResponseHandler => network_responses self
  end.

Definition callback_of (e : event) : handler :=
  match e with
  | OnRequest _ => RequestHandler
  | OnResponse _ => ResponseHandler
  end.

(** The normalized record of an event, when its projection succeeds. *)
Definition projection (e : event) : outcome value :=
  match e with
  | OnRequest message => request_data message
  | OnResponse message => response_data message
  end.

(** An event is recorded when its message can be normalized. *)
Definition recorded (e : event) : Prop :=
  exists record, projection e = Ok record.

Definition same_callback (h : handler) (e : event) : bool :=
  match h, e with
  | RequestHandler, OnRequest _ => true
  | ResponseHandler, OnResponse _ => true
  | _, _ => false
  end.

(** The records a sequence of events inserts into the buffer of [h], in
    arrival order. *)
Fixpoint inserted (h : handler) (events : list event) : list value :=
  match events with
  | [] => []
  | e :: rest =>
      if same_callback h e then
        match projection e with
        | Ok record => record :: inserted h rest
        | Raise _ => inserted h rest
        end
      else inserted h rest
  end.

(** The state after the driver delivered [events]. *)
Definition after_events (events : list event) (self : client D) : client D :=
  snd (deliver events self).

End WithDriver.

(** The four places of the API information under [data], in the order
    of the specification. *)
Definition api_paths : list (list string) :=
  [["api"]; ["getApi"]; ["apiDetails"]; ["marketplace"; "api"]].

(** A path is present when each of its keys is a key of the object
    reached so far. *)
Fixpoint path_lookup (path : list string) (v : value) : option value :=
  match path with
  | [] => Some v
  | k :: path' =>
      match v with
      | VDict d =>
          match dict_get k d with
          | Some x => path_lookup path' x
          | None => None
          end
      | _ => None
      end
  end.

(** What the first present path of a list holds. *)
Fixpoint first_present (paths : list (list string)) (v : value) : option value :=
  match paths with
  | [] => None
  | p :: rest =>
      match path_lookup p v with
      | Some x => Some x
      | None => first_present rest v
      end
  end.

(** [result.get(key)] for a dict: the value the baseline holds. *)
Definition existing (key : string) (baseline : dict) : value :=
  match dict_get key baseline with
  | Some x => x
  | None => VNone
  end.

(** Every occurrence of [pattern] in [text] starts at or after the
    position [n]. *)
Definition first_occurrence_at (pattern text : string) (n : nat) : Prop :=
  forall before rest : string,
    text = before ++ pattern ++ rest -> (n <= String.length before)%nat.

End Spec.

(** ** Example worlds and inputs *)

Module Examples.
Import Text Py Monad Client Spec.

(** A world without state in which every call returns [None] and no event
    arrives. *)
Definition quiet : Driver := {|
  World := unit;
  external := fun _ w => (Ok VNone, [], w);
  has_driver := fun _ => true
|}.

(** A world whose CDP commands all fail while the static assessment
    works. *)
Definition no_cdp : Driver := {|
  World := unit;
  external := fun c w =>
    match c with
    | ExecuteCdpCmd _ _ => (Raise (DriverError "cdp"), [], w)
    | AssessApi _ => (Ok (VDict [("name", VStr "static")]), [], w)
    | _ => (Ok VNone, [], w)
    end;
  has_driver := fun _ => true
|}.

(** A world in which every response body is [body]. *)
Definition serving (body : string) : Driver := {|
  World := unit;
  external := fun c w =>
    match c with
    | ExecuteCdpCmd _ _ => (Ok (VDict [("body", VStr body)]), [], w)
    | AssessApi _ => (Ok (VDict [("name", VStr "static")]), [], w)
    | _ => (Ok VNone, [], w)
    end;
  has_driver := fun _ => true
|}.

(** A client of the world [D] with the flag and the cap given. *)
Definition client_of (D : Driver) (w : @World D) (monitoring : bool) (cap : Z)
  : client D :=
  mkClient monitoring [] [] cap w [].

(** A request event in the CDP envelope, and one that cannot be
    projected: its [params] is not a dict. *)
Definition request_event (id : string) : event :=
  OnRequest (VDict [("params", VDict [("requestId", VStr id)])]).

Definition malformed_event : event :=
  OnRequest (VDict [("params", VNone)]).

(** A response event without a url. *)
Definition response_without_url : event :=
  OnResponse (VDict [("params", VDict [("requestId", VStr "1")])]).

(** The bodies of the examples of the specification. *)
Definition weather_body : string :=
  dq "{'data':{'api':{'name':'Weather API','rating':4.5,'reviewCount':'120'}}}".

Definition weather_text : string :=
  dq "'description','content':'Free weather data'".

(** Three request events, and a client with room for two records. *)
Definition three_requests : list event :=
  [request_event "a"; request_event "b"; request_event "c"].

Definition small_client : client quiet := client_of quiet tt false 2.

(** The small client once its buffer of requests is full. *)
Definition full_client : client quiet :=
  after_events [request_event "a"; request_event "b"] small_client.

(** A monitoring client whose response buffer holds the record of an
    event without a url. *)
Definition client_with_null_url : client quiet :=
  after_events [response_without_url] (client_of quiet tt true 1000).

(** A GraphQL response record with a request id, and one whose request id
    is the empty str. *)
Definition graphql_record (id : string) : dict :=
  [("requestId", VStr id); ("url", VStr "https://rapidapi.com/graphql")].

(** A response record of a marketplace page. *)
Definition api_record (id : string) : dict :=
  [("requestId", VStr id);
   ("url", VStr "https://rapidapi.com/weatherapi/api/weather/endpoints")].

(** The parsed envelope of [weather_body] and its parts. *)
Definition weather_api_info : value :=
  VDict [("name", VStr "Weather API"); ("rating", VFloat 4.5%float);
         ("reviewCount", VStr "120")].

Definition weather_data : dict := [("api", weather_api_info)].

Definition weather_envelope : dict := [("data", VDict weather_data)].

(** A structured payload with the description of the example. *)
Definition weather_payload : string :=
  ("0:" ++ weather_text ++ "}")%string.

(** A structured payload in which another description comes first. *)
Definition two_descriptions : string :=
  (dq "1:'description','content':'Other text'," ++ weather_text)%string.

(** A world that answers by request id: a structured payload with a list
    of endpoints for [r1], a GraphQL body whose [methods] is the empty
    list for [g1]. *)
Definition endpoints_payload : string := dq "2:{'endpoints': ['/current']}".

Definition empty_methods_body : string :=
  dq "{'data':{'api':{'name':'Weather API','methods':[]}}}".

Definition two_bodies : Driver := {|
  World := unit;
  external := fun c w =>
    match c with
    | ExecuteCdpCmd _ (VDict [(_, VStr "r1")]) =>
        (Ok (VDict [("body", VStr endpoints_payload)]), [], w)
    | ExecuteCdpCmd _ _ =>
        (Ok (VDict [("body", VStr empty_methods_body)]), [], w)
    | AssessApi _ => (Ok (VDict [("endpoints", VList [VStr "/static"])]), [], w)
    | _ => (Ok VNone, [], w)
    end;
  has_driver := fun _ => true
|}.

(** The outputs of the two extractors in that world and the baseline of
    the static assessment. *)
Definition rsc_output : dict := [("endpoints", VList [VStr "/current"])].

Definition graphql_output : dict :=
  [("name", VStr "Weather API"); ("endpoints", VList [])].

Definition static_result : dict := [("endpoints", VList [VStr "/static"])].

End Examples.

(** ** Frame conditions of the extractor steps *)

Module Frames.
Import Text Py Monad Client.

(** An outcome other than a JSON decoding error. *)
Definition tame {A} (o : outcome A) : Prop := o <> Raise JSONDecodeError.

Section WithDriver.
Context {D : Driver}.

(** A step of an extractor that leaves the client alone and raises no
    JSON decoding error. *)
Definition local {A} (m : X A) : Prop :=
  forall (d : dict) (self : client D),
    snd (snd (m (d, self))) = self /\ tame (fst (m (d, self))).

(** A step of an extractor that leaves the field [k] of the dict alone. *)
Definition keeps (k : string) {A} (m : X A) : Prop :=
  forall (d : dict) (self : client D),
    dict_get k (fst (snd (m (d, self)))) = dict_get k d.

End WithDriver.
End Frames.

(** * Further definitions: shutdown, extractor invariants *)

Module Extensions.
Import Text Py Monad Client Spec.
Local Open Scope list_scope.

(** The field names the two extractors write. *)
Definition rsc_keys : list string :=
  ["description"; "provider"; "pricing"; "endpoints"]%string.

Definition graphql_keys : list string :=
  ["name"; "description"; "provider"; "rating"; "reviewCount"; "popularity";
   "serviceLevel"; "documentationUrl"; "pricing"; "endpoints"]%string.

(** Every key of the dict is one of [allowed]. *)
Definition keys_within (allowed : list string) (d : dict) : Prop :=
  forall k, In k (map fst d) -> In k allowed.

(** The value of [k], when the dict has one, satisfies [P]. *)
Definition field_is (k : string) (P : value -> Prop) (d : dict) : Prop :=
  forall v, dict_get k d = Some v -> P v.

Definition is_float (v : value) : Prop := exists f, v = VFloat f.
Definition is_int (v : value) : Prop := exists z, v = VInt z.

(** A str that is not empty and holds no [stop]. *)
Definition segment_without (stop : string) (v : value) : Prop :=
  exists s, v = VStr s /\ s <> ""%string /\ contains stop s = false.

(** A str that holds no [stop]. *)
Definition text_without (stop : string) (v : value) : Prop :=
  exists s, v = VStr s /\ contains stop s = false.

(** The keys of a request record and of a response record, in order. *)
Definition request_keys : list string :=
  ["requestId"; "url"; "method"; "headers"; "timestamp"; "type"; "postData"]%string.

Definition response_keys : list string :=
  ["requestId"; "url"; "status"; "statusText"; "headers"; "mimeType";
   "timestamp"; "type"]%string.

Definition record_keys (h : handler) : list string :=
  match h with
  | RequestHandler => request_keys
  | ResponseHandler => response_keys
  end.

(** The values a JSON text can hold that are neither a str, a list nor an
    object: [in] is not defined on them. *)
Definition is_scalar (v : value) : bool :=
  match v with
  | VNone | VBool _ | VInt _ | VFloat _ => true
  | _ => false
  end.

(** The assignments of the structured-payload extractor, with what is
    known of the value assigned. *)
Record rsc_assignments (P : dict -> Prop) : Prop := {
  rsc_description : forall body group1 d,
    Re.search Re.desc_at body = Some group1 ->
    P d -> P (dict_set "description" (VStr group1) d);
  rsc_provider : forall url group1 d,
    Re.search Re.provider_at url = Some group1 ->
    P d -> P (dict_set "provider" (VStr group1) d);
  rsc_pricing : forall plans d,
    P d -> P (dict_set "pricing" (VDict [("tiers", plans)]) d);
  rsc_endpoints : forall endpoints d,
    P d -> P (dict_set "endpoints" endpoints d)
}.

(** The assignments of the GraphQL extractor. *)
Record graphql_assignments (P : dict -> Prop) : Prop := {
  graphql_copied : forall k v d,
    In k ["name"; "description"; "provider"; "popularity"; "serviceLevel";
          "documentationUrl"; "pricing"; "endpoints"]%string ->
    P d -> P (dict_set k v d);
  graphql_rating : forall v converted d,
    py_float v = Ok converted -> P d -> P (dict_set "rating" converted d);
  graphql_review_count : forall v converted d,
    py_int v = Ok converted -> P d -> P (dict_set "reviewCount" converted d)
}.



Section WithDriver.
Context {D : Driver}.

(** A step of an extractor that keeps a property of the dict. *)
Definition preserves (P : dict -> Prop) {A} (m : X A) : Prop :=
  forall (d : dict) (self : client D), P d -> P (fst (snd (m (d, self)))).

(** [close]: the monitoring is stopped when it is active, then the
    parent's [close] runs. The parent class is not part of the file: its
    method is the parameter [super_close]. *)
Definition close (super_close : M D unit) : M D unit :=
  monitoring <- gets network_monitoring ;;
  (if monitoring then _ <- stop_network_monitoring ;; ret tt else ret tt) ;;
  super_close.

(** The world answers every call of the client with a value. *)
Definition healthy : Prop :=
  forall (c : call) (w : World), exists v, fst (fst (external c w)) = Ok v.



End WithDriver.
End Extensions.

(** ** Further example worlds and inputs *)

Module MoreExamples.
Import Text Py Monad Client Spec Examples Extensions.
Local Open Scope list_scope.

(** A world whose body retrieval raises for the request id [bad] and
    answers the body of the example for the others. *)
Definition flaky : Driver := {|
  World := unit;
  external := fun c w =>
    match c with
    | ExecuteCdpCmd _ (VDict [(_, VStr "bad")]) =>
        (Raise (DriverError "no body"), [], w)
    | ExecuteCdpCmd _ _ => (Ok (VDict [("body", VStr weather_body)]), [], w)
    | AssessApi _ => (Ok (VDict [("name", VStr "static")]), [], w)
    | _ => (Ok VNone, [], w)
    end;
  has_driver := fun _ => true
|}.

(** A CDP envelope of a request, with and without a usable sub-object. *)
Definition full_params : dict :=
  [("requestId", VStr "9");
   ("request", VDict [("url", VStr "https://rapidapi.com/graphql");
                      ("method", VStr "POST")]);
   ("timestamp", VInt 12)].

Definition null_request_params : dict :=
  [("requestId", VStr "9"); ("request", VNone)].



(** Extracted data with a truthy and a falsy value, and a baseline. *)
Definition some_enhanced : dict :=
  [("description", VStr "Free weather data"); ("rating", VFloat 0%float)].

Definition some_baseline : dict :=
  [("name", VStr "static"); ("rating", VFloat 4%float)].

End MoreExamples.

(** * Properties of the capture buffer *)

Module BufferFacts.
Import Text Py Monad Client Spec.
Local Open Scope list_scope.

Section Lists.
Context {A : Type}.
Implicit Types (l : list A) (n : nat).

Lemma lastn_short n l : (List.length l <= n)%nat -> lastn n l = l.
Proof.
  intros H. unfold lastn.
  replace (List.length l - n)%nat with 0%nat by lia. reflexivity.
Qed.

Lemma lastn_length n l : List.length (lastn n l) = Nat.min n (List.length l).
Proof. unfold lastn. rewrite length_skipn. lia. Qed.

Lemma lastn_app_lastn n l l' : lastn n (lastn n l ++ l') = lastn n (l ++ l').
Proof.
  destruct (Nat.le_gt_cases (List.length l) n) as [Hle | Hgt].
  - now rewrite (lastn_short n l).
  - unfold lastn at 1 3. rewrite !length_app, lastn_length.
    replace (Nat.min n (List.length l)) with n by lia.
    replace (n + List.length l' - n)%nat with (List.length l') by lia.
    unfold lastn.
    replace (List.length l + List.length l' - n)%nat
      with (List.length l' + (List.length l - n))%nat by lia.
    rewrite <- skipn_skipn. f_equal.
    rewrite skipn_app.
    replace (List.length l - n - List.length l)%nat with 0%nat by lia.
    reflexivity.
Qed.

Lemma lastn_evict n x l r :
  List.length (x :: l) = n -> lastn n ((x :: l) ++ [r]) = l ++ [r].
Proof.
  intros H. unfold lastn. rewrite length_app, H.
  change (List.length [r]) with 1%nat.
  replace (n + 1 - n)%nat with 1%nat by lia.
  reflexivity.
Qed.

Lemma lastn_zero l : lastn 0 l = [].
Proof. unfold lastn. rewrite Nat.sub_0_r. apply skipn_all. Qed.

End Lists.

Section WithDriver.
Context {D : Driver}.
Implicit Types (self : client D) (e : event) (h : handler).

(** What one callback does to its buffer. *)
Lemma dispatch_buffer e self :
  buffer (callback_of e) (snd (dispatch e self)) =
    if Z.of_nat (List.length (buffer (callback_of e) self)) >=? max_network_entries self
    then match buffer (callback_of e) self with
         | [] => []
         | _ :: kept =>
             match projection e with
             | Ok record => kept ++ [record]
             | Raise _ => kept
             end
         end
    else match projection e with
         | Ok record => buffer (callback_of e) self ++ [record]
         | Raise _ => buffer (callback_of e) self
         end.
Proof.
  destruct e as [message | message]; simpl;
    unfold _network_request_handler, _network_response_handler,
      try_except, bind, gets, lift, ret, set_requests, set_responses, modify;
    simpl.
  - destruct (Z.of_nat (List.length (network_requests self)) >=? max_network_entries self);
      [destruct (network_requests self) eqn:Hbuf |]; simpl; rewrite ?Hbuf; trivial;
      destruct (request_data message); reflexivity.
  - destruct (Z.of_nat (List.length (network_responses self)) >=? max_network_entries self);
      [destruct (network_responses self) eqn:Hbuf |]; simpl; rewrite ?Hbuf; trivial;
      destruct (response_data message); reflexivity.
Qed.

(** A callback leaves the rest of the client alone. *)
Lemma dispatch_frame e self :
  let self' := snd (dispatch e self) in
  network_monitoring self' = network_monitoring self /\
  max_network_entries self' = max_network_entries self /\
  world self' = world self /\
  calls self' = calls self /\
  (forall h, h <> callback_of e -> buffer h self' = buffer h self).
Proof.
  destruct e as [message | message]; simpl;
    unfold _network_request_handler, _network_response_handler,
      try_except, bind, gets, lift, ret, set_requests, set_responses, modify;
    simpl.
  - destruct (Z.of_nat (List.length (network_requests self)) >=? max_network_entries self);
      [destruct (network_requests self) |]; simpl;
      try destruct (request_data message); simpl;
      repeat split; trivial; intros [] Hh; trivial; now elim Hh.
  - destruct (Z.of_nat (List.length (network_responses self)) >=? max_network_entries self);
      [destruct (network_responses self) |]; simpl;
      try destruct (response_data message); simpl;
      repeat split; trivial; intros [] Hh; trivial; now elim Hh.
Qed.

Lemma deliver_cons e events self :
  snd (deliver (e :: events) self) = snd (deliver events (snd (dispatch e self))).
Proof.
  simpl. unfold bind.
  assert (Hnever : fst (dispatch e self) = Ok tt).
  { destruct e as [message | message]; simpl;
      unfold _network_request_handler, _network_response_handler, try_except, ret;
      match goal with |- context [match ?m self with _ => _ end] => destruct (m self) as [[[] | err] s'] end;
      reflexivity. }
  destruct (dispatch e self) as [[[] | err] s']; simpl in *; [reflexivity | discriminate].
Qed.

Lemma deliver_frame events : forall self,
  let self' := snd (deliver events self) in
  network_monitoring self' = network_monitoring self /\
  max_network_entries self' = max_network_entries self /\
  world self' = world self /\
  calls self' = calls self.
Proof.
  induction events as [| e events IH]; intros self.
  - simpl. auto.
  - cbv zeta. rewrite deliver_cons.
    destruct (IH (snd (dispatch e self))) as (H1 & H2 & H3 & H4).
    destruct (dispatch_frame e self) as (F1 & F2 & F3 & F4 & _).
    repeat split; congruence.
Qed.

Lemma same_callback_spec h e : same_callback h e = true <-> h = callback_of e.
Proof. destruct h, e; simpl; split; congruence. Qed.

(** The buffer of [h] after one event. *)
Lemma dispatch_step h e self :
  0 <= max_network_entries self ->
  Z.of_nat (List.length (buffer h self)) <= max_network_entries self ->
  Z.of_nat (List.length (buffer h (snd (dispatch e self)))) <= max_network_entries self /\
  (recorded e ->
   buffer h (snd (dispatch e self)) =
     lastn (Z.to_nat (max_network_entries self)) (buffer h self ++ inserted h [e])).
Proof.
  intros Hcap Hlen. simpl.
  destruct (same_callback h e) eqn:Hsame.
  - apply same_callback_spec in Hsame. subst h. rewrite dispatch_buffer.
    destruct (Z.geb_spec (Z.of_nat (List.length (buffer (callback_of e) self)))
                (max_network_entries self)) as [Hge | Hlt].
    + destruct (buffer (callback_of e) self) as [| oldest kept] eqn:Hbuf.
      * split; [simpl; lia |]. intros _. simpl in Hge.
        replace (max_network_entries self) with 0 by lia.
        simpl. now rewrite lastn_zero.
      * split.
        { destruct (projection e); rewrite ?length_app; simpl in *; lia. }
        intros [record Hrec]. rewrite Hrec.
        symmetry. apply lastn_evict. simpl in *. lia.
    + split.
      { destruct (projection e); rewrite ?length_app; simpl; lia. }
      intros [record Hrec]. rewrite Hrec.
      symmetry. apply lastn_short. rewrite length_app. simpl. lia.
  - assert (Hne : h <> callback_of e).
    { intros Heq. apply same_callback_spec in Heq. congruence. }
    destruct (dispatch_frame e self) as (_ & _ & _ & _ & Hother).
    rewrite (Hother h Hne). split; [assumption |].
    intros _. rewrite app_nil_r. symmetry. apply lastn_short. lia.
Qed.

(** C1. Whatever events the driver delivers, each buffer stays within the
    cap after every callback; and when every event of the sequence is
    recorded, the buffer holds the last [cap] records inserted into it (the
    ones it held, then the new ones), in arrival order. The sequence is
    arbitrary, so this is the state after each callback of a longer one. *)
Theorem buffer_keeps_latest_within_cap :
  forall (self : client D) (events : list event) (h : handler),
    0 <= max_network_entries self ->
    Z.of_nat (List.length (buffer h self)) <= max_network_entries self ->
    Z.of_nat (List.length (buffer h (after_events events self)))
      <= max_network_entries self /\
    (Forall recorded events ->
     buffer h (after_events events self) =
       lastn (Z.to_nat (max_network_entries self))
         (buffer h self ++ inserted h events)).
Proof.
  intros self events h Hcap. revert self Hcap.
  induction events as [| e events IH]; intros self Hcap Hlen.
  - unfold after_events. simpl. split; [assumption |].
    intros _. rewrite app_nil_r. symmetry. apply lastn_short. lia.
  - unfold after_events in *. rewrite deliver_cons.
    destruct (dispatch_step h e self Hcap Hlen) as [Hlen' Hbuf'].
    destruct (dispatch_frame e self) as (_ & Hsame_cap & _).
    cbv zeta in Hsame_cap.
    specialize (IH (snd (dispatch e self))).
    rewrite Hsame_cap in IH.
    destruct (IH Hcap Hlen') as [IHlen IHbuf].
    split; [assumption |].
    intros Hall. inversion Hall as [| e' events' Hrec Hrest]; subst.
    rewrite (IHbuf Hrest), (Hbuf' Hrec).
    rewrite lastn_app_lastn, <- app_assoc. f_equal. f_equal.
    simpl. destruct (same_callback h e); [| reflexivity].
    destruct (projection e); reflexivity.
Qed.

(** C10. At capacity the oldest record is evicted before the message is
    projected: when the projection raises, the event is dropped and the
    buffer is left with the records that followed the oldest one, one
    entry shorter than it was. *)
Theorem eviction_precedes_projection :
  forall (self : client D) (e : event) (oldest : value) (kept : list value) (err : exn),
    buffer (callback_of e) self = oldest :: kept ->
    Z.of_nat (List.length (buffer (callback_of e) self)) >= max_network_entries self ->
    projection e = Raise err ->
    buffer (callback_of e) (snd (dispatch e self)) = kept /\
    S (List.length (buffer (callback_of e) (snd (dispatch e self))))
      = List.length (buffer (callback_of e) self).
Proof.
  intros self e oldest kept err Hbuf Hfull Hraise.
  rewrite dispatch_buffer, Hraise, Hbuf in *.
  destruct (Z.geb_spec (Z.of_nat (List.length (oldest :: kept))) (max_network_entries self));
    [| lia].
  split; reflexivity.
Qed.

End WithDriver.
End BufferFacts.

(** * Properties of the monitoring controller and the orchestrator *)

Module ControllerFacts.
Import Text Py Monad Client Spec BufferFacts.
Local Open Scope list_scope.

Section WithDriver.
Context {D : Driver}.
Implicit Types (self : client D) (c : call).

(** An external call returns what the world answers, logs the call, and
    touches neither the flag nor the cap. *)
Lemma call_out_spec c self :
  fst (call_out c self) = fst (fst (external c (world self))) /\
  network_monitoring (snd (call_out c self)) = network_monitoring self /\
  max_network_entries (snd (call_out c self)) = max_network_entries self /\
  calls (snd (call_out c self)) = calls self ++ [c] /\
  world (snd (call_out c self)) = snd (external c (world self)).
Proof.
  unfold call_out. destruct (external c (world self)) as [[r events] w].
  destruct (deliver_frame events (snd (set_world w c self))) as (H1 & H2 & H3 & H4).
  cbn [fst snd]. rewrite H1, H2, H3, H4. repeat split; reflexivity.
Qed.

Lemma call_out_monitoring c self :
  network_monitoring (snd (call_out c self)) = network_monitoring self.
Proof. apply call_out_spec. Qed.

(** One step of a sequence. *)
Lemma bind_eq {S A B} (m : ST S A) (k : A -> ST S B) (s : S) :
  bind m k s =
    match fst (m s) with
    | Ok a => k a (snd (m s))
    | Raise e => (Raise e, snd (m s))
    end.
Proof. unfold bind. destruct (m s) as [[a | e] s']; reflexivity. Qed.

(** One step of a sequence that begins with an external call. *)
Lemma bind_call_out {B} c (k : value -> M D B) self :
  bind (call_out c) k self =
    match fst (call_out c self) with
    | Ok v => k v (snd (call_out c self))
    | Raise e => (Raise e, snd (call_out c self))
    end.
Proof. unfold bind. destruct (call_out c self) as [[v | e] s']; reflexivity. Qed.

(** The two controller methods, by the flag they find. *)
Lemma start_unfold self :
  start_network_monitoring self =
    if network_monitoring self then (Ok true, self)
    else
      try_except
        (_ <- call_out GetChromeDriver ;;
         _ <- call_out (ExecuteCdpCmd "Network.enable" (VDict [])) ;;
         _ <- call_out (AddCdpListener "Network.requestWillBeSent" RequestHandler) ;;
         _ <- call_out (AddCdpListener "Network.responseReceived" ResponseHandler) ;;
         set_monitoring true ;;
         ret true)
        (fun _ => ret false) self.
Proof.
  unfold start_network_monitoring, bind at 1, gets.
  destruct (network_monitoring self); reflexivity.
Qed.

Lemma stop_unfold self :
  stop_network_monitoring self =
    if network_monitoring self then
      if has_driver (world self) then
        match fst (call_out (ExecuteCdpCmd "Network.disable" (VDict [])) self) with
        | Ok _ =>
            set_monitoring false ;; ret true
        | Raise _ => ret false
        end (snd (call_out (ExecuteCdpCmd "Network.disable" (VDict [])) self))
      else (set_monitoring false ;; ret true) self
    else (Ok true, self).
Proof.
  unfold stop_network_monitoring, bind at 1, gets.
  destruct (network_monitoring self); [| reflexivity]. simpl.
  unfold try_except, bind at 1, gets.
  destruct (has_driver (world self)); [| reflexivity].
  unfold bind at 1. rewrite bind_call_out.
  destruct (call_out _ self) as [[v | e] s']; reflexivity.
Qed.

(** [start_network_monitoring] returns the flag it leaves. *)
Lemma start_returns_flag self :
  fst (start_network_monitoring self)
    = Ok (network_monitoring (snd (start_network_monitoring self))).
Proof.
  rewrite start_unfold.
  destruct (network_monitoring self) eqn:Hflag; [simpl; now rewrite Hflag |].
  unfold try_except. rewrite !bind_call_out.
  repeat match goal with
  | |- context [fst (call_out ?c ?s)] =>
      let H := fresh "Hcall" in
      pose proof (call_out_monitoring c s) as H;
      destruct (call_out c s) as [[? | ?] ?]; simpl in H |- *;
      try (rewrite !bind_call_out)
  end; simpl; congruence.
Qed.

(** [stop_network_monitoring] with the flag set and a driver: the disable
    command is the one call made. *)
Lemma stop_calls_disable self :
  network_monitoring self = true ->
  has_driver (world self) = true ->
  calls (snd (stop_network_monitoring self))
    = calls self ++ [ExecuteCdpCmd "Network.disable" (VDict [])].
Proof.
  intros Hflag Hdriver. rewrite stop_unfold, Hflag, Hdriver.
  destruct (call_out_spec (ExecuteCdpCmd "Network.disable" (VDict [])) self)
    as (_ & _ & _ & Hcalls & _).
  destruct (call_out _ self) as [[v | e] s']; simpl in *; assumption.
Qed.

(** C3, as the code has it. When monitoring is active, a driver handle
    exists and the [Network.disable] command raises,
    [stop_network_monitoring] returns [False] and the flag stays [True]:
    the assignment that resets it is skipped by the exception. A repeated
    stop call is therefore not the early return; with the driver handle
    still there it sends the disable command again. *)
Theorem stop_failure_keeps_monitoring :
  forall (self : client D) (err : exn),
    network_monitoring self = true ->
    has_driver (world self) = true ->
    fst (fst (external (ExecuteCdpCmd "Network.disable" (VDict [])) (world self)))
      = Raise err ->
    fst (stop_network_monitoring self) = Ok false /\
    network_monitoring (snd (stop_network_monitoring self)) = true /\
    (has_driver (world (snd (stop_network_monitoring self))) = true ->
     calls (snd (stop_network_monitoring (snd (stop_network_monitoring self))))
       = calls self ++ [ExecuteCdpCmd "Network.disable" (VDict []);
                        ExecuteCdpCmd "Network.disable" (VDict [])]).
Proof.
  intros self err Hflag Hdriver Hraise.
  assert (Hfirst : fst (stop_network_monitoring self) = Ok false /\
                   network_monitoring (snd (stop_network_monitoring self)) = true).
  { rewrite stop_unfold, Hflag, Hdriver.
    destruct (call_out_spec (ExecuteCdpCmd "Network.disable" (VDict [])) self)
      as (Hres & Hmon & _).
    rewrite Hraise in Hres.
    destruct (call_out _ self) as [[v | e] s']; simpl in *;
      [discriminate | split; [reflexivity | congruence]]. }
  destruct Hfirst as [Hres Hstill]. repeat split; trivial.
  intros Hdriver'.
  rewrite (stop_calls_disable _ Hstill Hdriver'),
    (stop_calls_disable _ Hflag Hdriver), <- app_assoc.
  reflexivity.
Qed.

(** C8. [start_network_monitoring] with the flag already [True] and
    [stop_network_monitoring] with the flag already [False] return [True]
    and leave the whole client as it was: the flag, both buffers, the world
    and the log of external calls, so no driver command was sent. *)
Theorem start_stop_idempotent :
  forall (self : client D),
    (network_monitoring self = true ->
     start_network_monitoring self = (Ok true, self)) /\
    (network_monitoring self = false ->
     stop_network_monitoring self = (Ok true, self)).
Proof.
  intros self. split; intros Hflag.
  - now rewrite start_unfold, Hflag.
  - now rewrite stop_unfold, Hflag.
Qed.

Lemma clear_network_data_spec self :
  fst (clear_network_data self) = Ok tt /\
  network_monitoring (snd (clear_network_data self)) = network_monitoring self.
Proof. split; reflexivity. Qed.

(** C7. When [start_network_monitoring] fails on the cleared client,
    [assess_api_enhanced] returns what the static assessment returns for
    that URL, untouched: the outcome of the call [assess_api(api_url)]
    made right after the failed start or, when that call raises, of the
    same call made once more by the exception handler. No extractor runs
    and nothing is merged. The flag is [False] at the end. *)
Theorem start_failure_returns_static :
  forall (self : client D) (api_url : string),
    fst (start_network_monitoring (snd (clear_network_data self))) = Ok false ->
    let unstarted := snd (start_network_monitoring (snd (clear_network_data self))) in
    let static := call_out (AssessApi api_url) unstarted in
    assess_api_enhanced api_url self =
      match fst static with
      | Ok _ => static
      | Raise _ => call_out (AssessApi api_url) (snd static)
      end /\
    network_monitoring (snd (assess_api_enhanced api_url self)) = false.
Proof.
  intros self api_url Hfail unstarted static.
  assert (Hflag : network_monitoring unstarted = false).
  { pose proof (start_returns_flag (snd (clear_network_data self))) as H.
    rewrite Hfail in H. unfold unstarted. congruence. }
  assert (Hstatic : network_monitoring (snd static) = false).
  { unfold static. now rewrite call_out_monitoring. }
  assert (Heq : assess_api_enhanced api_url self =
                match fst static with
                | Ok _ => static
                | Raise _ => call_out (AssessApi api_url) (snd static)
                end).
  { unfold assess_api_enhanced, try_except.
    rewrite bind_eq, (proj1 (clear_network_data_spec self)).
    rewrite bind_eq, Hfail.
    change (negb false) with true. cbv iota beta.
    fold unstarted. fold static.
    destruct static as [[v | e] s2] eqn:Hs; simpl fst; simpl snd; cbv iota; trivial.
    rewrite bind_eq, stop_unfold. simpl in Hstatic. rewrite Hstatic. reflexivity. }
  split; [exact Heq |].
  rewrite Heq. destruct (fst static); [assumption |].
  now rewrite call_out_monitoring.
Qed.

End WithDriver.
End ControllerFacts.

(** * Properties of the filtered read and of the merge *)

Module DictFacts.
Import Text Py Monad Client Spec.
Local Open Scope list_scope.

Lemma dict_get_set_same k v (d : dict) : dict_get k (dict_set k v d) = Some v.
Proof.
  induction d as [| [k' v'] d IH]; simpl.
  - now rewrite String.eqb_refl.
  - destruct (String.eqb k k') eqn:Hk; simpl; rewrite ?String.eqb_refl, ?Hk; trivial.
Qed.

Lemma dict_get_set_other k k' v (d : dict) :
  k <> k' -> dict_get k (dict_set k' v d) = dict_get k d.
Proof.
  intros Hne. induction d as [| [k1 v1] d IH]; simpl.
  - destruct (String.eqb_spec k k'); [contradiction | reflexivity].
  - destruct (String.eqb_spec k' k1) as [-> | Hk1]; simpl.
    + destruct (String.eqb_spec k k1); [contradiction | reflexivity].
    + destruct (String.eqb_spec k k1); [reflexivity | exact IH].
Qed.

Lemma dict_get_absent k (d : dict) : ~ In k (map fst d) -> dict_get k d = None.
Proof.
  induction d as [| [k' v'] d IH]; simpl; intros Hnot; [reflexivity |].
  destruct (String.eqb_spec k k') as [-> | Hne].
  - elim Hnot. now left.
  - apply IH. intros Hin. apply Hnot. now right.
Qed.

(** [d.update(other)] key by key. *)
Lemma dict_get_update k (other : dict) : forall d : dict,
  dict_wf other ->
  dict_get k (dict_update d other) =
    match dict_get k other with
    | Some v => Some v
    | None => dict_get k d
    end.
Proof.
  unfold dict_wf, dict_update.
  induction other as [| [k' v'] other IH]; intros d Hwf; simpl; [reflexivity |].
  inversion Hwf as [| k0 keys Hfresh Hrest]; subst.
  rewrite (IH _ Hrest).
  destruct (String.eqb_spec k k') as [-> | Hne].
  - now rewrite (dict_get_absent _ _ Hfresh), dict_get_set_same.
  - now rewrite (dict_get_set_other _ _ _ _ Hne).
Qed.

Lemma dict_get_absorb k (d other : dict) :
  dict_wf other ->
  dict_get k (absorb d other) =
    match dict_get k other with
    | Some v => Some v
    | None => dict_get k d
    end.
Proof.
  intros Hwf. destruct other as [| kv other]; [reflexivity |].
  unfold absorb. now apply dict_get_update.
Qed.

Lemma dict_set_keys k v (d : dict) :
  map fst (dict_set k v d) =
    if dict_mem k d then map fst d else map fst d ++ [k].
Proof.
  unfold dict_mem. induction d as [| [k' v'] d IH]; simpl; [reflexivity |].
  destruct (String.eqb_spec k k') as [-> | Hne]; simpl; [reflexivity |].
  rewrite IH. now destruct (dict_get k d).
Qed.

Lemma dict_mem_in k (d : dict) : dict_mem k d = false -> ~ In k (map fst d).
Proof.
  unfold dict_mem. induction d as [| [k' v'] d IH]; simpl; [tauto |].
  destruct (String.eqb_spec k k') as [-> | Hne]; [discriminate |].
  intros H [Heq | Hin]; [congruence | now apply IH].
Qed.

Lemma dict_set_wf k v (d : dict) : dict_wf d -> dict_wf (dict_set k v d).
Proof.
  unfold dict_wf. intros Hwf. rewrite dict_set_keys.
  destruct (dict_mem k d) eqn:Hmem; [assumption |].
  apply NoDup_app; [assumption | repeat constructor; simpl; tauto |].
  intros x Hin [<- | []]. now apply (dict_mem_in _ _ Hmem).
Qed.

Lemma dict_update_wf (other : dict) : forall d : dict,
  dict_wf d -> dict_wf (dict_update d other).
Proof.
  unfold dict_update. induction other as [| [k v] other IH]; intros d Hwf; simpl.
  - assumption.
  - apply IH. now apply dict_set_wf.
Qed.

Lemma absorb_wf (d other : dict) : dict_wf d -> dict_wf (absorb d other).
Proof.
  intros Hwf. destruct other; [assumption |]. now apply dict_update_wf.
Qed.

(** The loop of the merge, key by key. *)
Lemma merge_items_spec (items : dict) : forall baseline : dict,
  dict_wf items ->
  exists merged : dict,
    merge_items items (VDict baseline) = Ok (VDict merged) /\
    forall key,
      dict_get key merged =
        match dict_get key items with
        | Some v =>
            if truthy v && py_ne v (existing key baseline)
            then Some v else dict_get key baseline
        | None => dict_get key baseline
        end.
Proof.
  unfold dict_wf.
  induction items as [| [k v] items IH]; intros baseline Hwf; simpl.
  - exists baseline. split; reflexivity.
  - inversion Hwf as [| k0 keys Hfresh Hrest]; subst.
    fold (existing k baseline).
    destruct (truthy v && py_ne v (existing k baseline)) eqn:Hcond.
    + apply andb_prop in Hcond as [Ht Hne]. rewrite Ht, Hne. simpl.
      destruct (IH (dict_set k v baseline) Hrest) as (merged & Hrun & Hget).
      exists merged. split; [assumption |]. intros key. rewrite Hget.
      destruct (String.eqb_spec key k) as [-> | Hkey].
      * rewrite (dict_get_absent _ _ Hfresh), dict_get_set_same, Ht, Hne.
        reflexivity.
      * unfold existing. rewrite (dict_get_set_other _ _ _ _ Hkey). reflexivity.
    + destruct (IH baseline Hrest) as (merged & Hrun & Hget).
      exists merged. split.
      * destruct (truthy v); [| assumption].
        simpl in Hcond. rewrite Hcond. assumption.
      * intros key. rewrite Hget.
        destruct (String.eqb_spec key k) as [-> | Hkey]; [| reflexivity].
        now rewrite (dict_get_absent _ _ Hfresh), Hcond.
Qed.

(** C4, as the code has it. For every baseline mapping and every pair of
    extractor outputs the merge succeeds, and key by key: the value
    considered is the GraphQL one when the GraphQL output has the key (it
    is applied second), else the structured-payload one; the baseline
    field is overwritten by it exactly when it is truthy and differs from
    what the baseline holds for the key, and is left as it was otherwise.
    So a field produced by both extractors ends with the GraphQL value
    when that value is truthy and new, and with the untouched baseline
    field when the GraphQL value is falsy. *)
Theorem merge_overwrites_truthy_changed :
  forall (baseline rsc_data graphql_data : dict),
    dict_wf rsc_data ->
    dict_wf graphql_data ->
    exists merged : dict,
      merge (absorb (absorb [] rsc_data) graphql_data) (VDict baseline)
        = Ok (VDict merged) /\
      forall key,
        dict_get key merged =
          match dict_get key (absorb (absorb [] rsc_data) graphql_data) with
          | Some v =>
              if truthy v && py_ne v (existing key baseline)
              then Some v else dict_get key baseline
          | None => dict_get key baseline
          end /\
        dict_get key (absorb (absorb [] rsc_data) graphql_data) =
          match dict_get key graphql_data with
          | Some g => Some g
          | None => dict_get key rsc_data
          end /\
        (forall g,
           dict_get key graphql_data = Some g ->
           dict_get key merged =
             if truthy g && py_ne g (existing key baseline)
             then Some g else dict_get key baseline).
Proof.
  intros baseline rsc_data graphql_data Hrsc Hgql.
  set (enhanced_data := absorb (absorb [] rsc_data) graphql_data).
  assert (Hwf : dict_wf enhanced_data).
  { unfold enhanced_data. apply absorb_wf, absorb_wf. constructor. }
  assert (Hlook : forall key,
             dict_get key enhanced_data =
               match dict_get key graphql_data with
               | Some g => Some g
               | None => dict_get key rsc_data
               end).
  { intros key. unfold enhanced_data.
    rewrite (dict_get_absorb _ _ _ Hgql), (dict_get_absorb _ _ _ Hrsc).
    simpl. now destruct (dict_get key rsc_data). }
  destruct (merge_items_spec enhanced_data baseline Hwf) as (merged & Hrun & Hget).
  exists merged. split.
  - unfold merge. destruct enhanced_data; [| exact Hrun].
    simpl in Hrun. exact Hrun.
  - intros key. repeat split.
    + apply Hget.
    + apply Hlook.
    + intros g Hg. rewrite Hget, Hlook, Hg. reflexivity.
Qed.

End DictFacts.

Module FilterFacts.
Import Text Py Monad Client Spec.
Local Open Scope list_scope.

(** The list comprehension raises nothing but [AttributeError]. *)
Lemma filter_by_url_raises f (responses : list value) err :
  filter_by_url f responses = Raise err -> err = AttributeError.
Proof.
  induction responses as [| resp rest IH]; simpl; [discriminate |].
  destruct resp; simpl; try congruence.
  destruct (dict_get "url" d) as [[] |]; simpl; try congruence;
    destruct (filter_by_url f rest); simpl; try congruence; auto.
Qed.

(** A record whose [url] is [None] makes the comprehension raise,
    wherever it is in the buffer. *)
Lemma filter_by_url_null f (responses : list value) resp d :
  In resp responses ->
  resp = VDict d ->
  dict_get "url" d = Some VNone ->
  filter_by_url f responses = Raise AttributeError.
Proof.
  intros Hin -> Hurl.
  induction responses as [| first rest IH]; simpl in *; [contradiction |].
  destruct Hin as [-> | Hin].
  - simpl. rewrite Hurl. reflexivity.
  - specialize (IH Hin).
    destruct (py_get first "url" (VStr "")) as [url | e] eqn:Hget; simpl.
    + destruct (py_lower url) as [low | e] eqn:Hlow; simpl.
      * rewrite IH. reflexivity.
      * destruct url; simpl in Hlow; congruence.
    + destruct first; simpl in Hget; congruence.
Qed.

Section WithDriver.
Context {D : Driver}.

(** C2, on the code. With a non-empty filter, one record of the response
    buffer whose [url] is [None] makes [get_network_responses] raise
    [AttributeError]: the default of [resp.get('url', '')] is used only
    when the key is missing, the handlers always store the key, and
    [None] has no [lower]. The record is neither matched as an empty str
    nor left out, and the call raises. *)
Theorem null_url_breaks_filter :
  forall (self : client D) (url_filter : string) (resp : value) (d : dict),
    url_filter <> ""%string ->
    In resp (network_responses self) ->
    resp = VDict d ->
    dict_get "url" d = Some VNone ->
    get_network_responses (Some url_filter) self = (Raise AttributeError, self).
Proof.
  intros self url_filter resp d Hne Hin Hresp Hurl.
  unfold get_network_responses, bind, gets, lift. simpl.
  destruct (String.eqb_spec url_filter ""); [contradiction |]. simpl.
  now rewrite (filter_by_url_null _ _ _ _ Hin Hresp Hurl).
Qed.

(** When every record has a str [url], the filtered read returns the
    records whose url contains the filter, case folded, in buffer order. *)
Lemma filter_by_url_strings f (responses : list value) :
  Forall (fun resp => exists d u, resp = VDict d /\ dict_get "url" d = Some (VStr u))
    responses ->
  filter_by_url f responses =
    Ok (filter (fun resp =>
                  match resp with
                  | VDict d =>
                      match dict_get "url" d with
                      | Some (VStr u) => contains (lower f) (lower u)
                      | _ => false
                      end
                  | _ => false
                  end) responses).
Proof.
  induction 1 as [| resp rest (d & u & -> & Hurl) Hrest IH]; simpl; [reflexivity |].
  rewrite Hurl, IH. simpl.
  now destruct (contains (lower f) (lower u)).
Qed.

End WithDriver.
End FilterFacts.

(** * Properties of the payload extractors *)

Module ExtractorFacts.
Import Text Py Monad Client Spec Frames ControllerFacts DictFacts.
Local Open Scope list_scope.

(** *** Text *)

Lemma strip_prefix_app (p s : string) : strip_prefix p (p ++ s)%string = Some s.
Proof.
  induction p as [| c p IH]; simpl; [reflexivity |].
  now rewrite Ascii.eqb_refl.
Qed.

Lemma strip_prefix_some (p s r : string) :
  strip_prefix p s = Some r -> s = (p ++ r)%string.
Proof.
  revert s. induction p as [| c p IH]; intros s; simpl.
  - congruence.
  - destruct s as [| c' s]; [discriminate |].
    destruct (Ascii.eqb_spec c c') as [-> | Hne]; [| discriminate].
    intros H. now rewrite (IH _ H).
Qed.

Lemma contains_app (p before rest : string) :
  contains p (before ++ p ++ rest)%string = true.
Proof.
  induction before as [| c before IH]; simpl.
  - destruct rest, p; simpl; unfold starts_with;
      try rewrite (strip_prefix_app (String _ _)); simpl;
      rewrite ?Ascii.eqb_refl, ?strip_prefix_app; reflexivity.
  - rewrite IH. apply orb_true_r.
Qed.

(** The leftmost match is the one at the first occurrence of the
    literal prefix of the pattern. *)
Lemma search_desc_first (before s : string) (group1 : string) :
  first_occurrence_at Re.desc_prefix (before ++ s)%string (String.length before) ->
  Re.desc_at s = Some group1 ->
  Re.search Re.desc_at (before ++ s)%string = Some group1.
Proof.
  intros Hfirst Hat.
  induction before as [| c before IH].
  - change (EmptyString ++ s)%string with s.
    destruct s; cbn [Re.search]; now rewrite Hat.
  - assert (Hnone : Re.desc_at (String c before ++ s)%string = None).
    { unfold Re.desc_at.
      destruct (strip_prefix Re.desc_prefix (String c before ++ s)%string) as [r |] eqn:Hr;
        [| reflexivity].
      apply strip_prefix_some in Hr.
      specialize (Hfirst EmptyString r Hr). simpl in Hfirst. lia. }
    change (Re.search Re.desc_at (String c before ++ s)%string)
      with (match Re.desc_at (String c before ++ s)%string with
            | Some x => Some x
            | None => Re.search Re.desc_at (before ++ s)%string
            end).
    rewrite Hnone. apply IH.
    intros b r Heq.
    specialize (Hfirst (String c b) r). simpl in Hfirst.
    rewrite Heq in Hfirst. specialize (Hfirst eq_refl). lia.
Qed.

Lemma desc_at_weather (rest : string) :
  Re.desc_at (Examples.weather_text ++ rest)%string = Some "Free weather data"%string.
Proof. reflexivity. Qed.


Section WithDriver.
Context {D : Driver}.
Implicit Types (self : client D) (d : dict).

(** An extractor returns the dict its loop leaves. *)
Lemma run_extractor_eq (loop : X unit) self :
  run_extractor loop self =
    (Ok (fst (snd (loop (@pair dict (client D) [] self)))),
     snd (snd (loop (@pair dict (client D) [] self)))).
Proof.
  unfold run_extractor, try_except, ret.
  change (@pair (list (string * value)) (client D) [] self)
    with (@pair dict (client D) [] self).
  destruct (loop (@pair dict (client D) [] self)) as [[[] | e] [d s]]; reflexivity.
Qed.

(** One turn of the loop of the GraphQL extractor. *)
Lemma graphql_loop_cons response rest d self :
  graphql_loop (response :: rest) (d, self) =
    match py_get response "requestId" VNone with
    | Raise e => (Raise e, (d, self))
    | Ok request_id =>
        if truthy request_id then
          match fst (get_response_body request_id self) with
          | Raise e => (Raise e, (d, snd (get_response_body request_id self)))
          | Ok body =>
              if truthy body then
                match try_json (graphql_parse body) (fun _ => ret false)
                        (d, snd (get_response_body request_id self)) with
                | (Ok true, st) => (Ok tt, st)
                | (Ok false, st) => graphql_loop rest st
                | (Raise e, st) => (Raise e, st)
                end
              else graphql_loop rest (d, snd (get_response_body request_id self))
          end
        else graphql_loop rest (d, self)
    end.
Proof.
  cbn [graphql_loop]. unfold bind at 1, lift at 1.
  destruct (py_get response "requestId" VNone) as [request_id | e]; [| reflexivity].
  unfold bind at 1.
  destruct (truthy request_id); [| reflexivity].
  unfold bind at 1, fetch_body, on_snd. cbn [fst snd].
  destruct (get_response_body request_id self) as [[body | e] s1]; cbn [fst snd];
    [| reflexivity].
  destruct (truthy body); [| reflexivity].
  destruct (try_json (graphql_parse body) (fun _ => ret false) (d, s1))
    as [[[] | e] st]; reflexivity.
Qed.

(** The body of the example is parsed and projected at once. *)
Lemma graphql_parse_weather self :
  graphql_parse (VStr Examples.weather_body) ([], self) =
    (Ok true,
     ([("name", VStr "Weather API"); ("rating", VFloat 4.5%float);
       ("reviewCount", VInt 120)], self)).
Proof. vm_compute. reflexivity. Qed.

(** C5, as the code has it. For a response record whose requestId is
    truthy (not [None], not empty) and whose fetched body is the JSON text
    of the example, the GraphQL extractor returns the name as it is, the
    rating as the float 4.5 and the review count as the int 120, whatever
    records follow. *)
Theorem graphql_extracts_weather :
  forall (self : client D) (record : dict) (request_id : value) (rest : list value),
    dict_get "requestId" record = Some request_id ->
    truthy request_id = true ->
    fst (get_response_body request_id self) = Ok (VStr Examples.weather_body) ->
    fst (_extract_graphql_data (VDict record :: rest) self) =
      Ok [("name", VStr "Weather API"); ("rating", VFloat 4.5%float);
          ("reviewCount", VInt 120)].
Proof.
  intros self record request_id rest Hid Htruthy Hbody.
  unfold _extract_graphql_data. rewrite run_extractor_eq, graphql_loop_cons.
  cbn [py_get]. rewrite Hid, Htruthy, Hbody.
  change (truthy (VStr Examples.weather_body)) with true. cbv iota.
  unfold try_json. rewrite graphql_parse_weather. reflexivity.
Qed.


(** *** The projection of the API information is local *)

Lemma local_ret {A} (a : A) : local (ret a).
Proof. intros d self. split; [reflexivity | discriminate]. Qed.

Lemma local_lift {A} (o : outcome A) : tame o -> local (lift o).
Proof. intros Ho d self. split; [reflexivity | exact Ho]. Qed.

Lemma local_set_field k v : local (set_field k v).
Proof. intros d self. split; [reflexivity | discriminate]. Qed.

Lemma local_bind {A B} (m : X A) (k : A -> X B) :
  local m -> (forall a, local (k a)) -> local (bind m k).
Proof.
  intros Hm Hk d self. unfold bind.
  destruct (Hm d self) as [Hs Ht].
  destruct (m (d, self)) as [[a | e] [d' s']]; simpl in *; subst.
  - apply Hk.
  - split; [reflexivity |]. intros Heq. apply Ht. congruence.
Qed.

Lemma tame_py_get v k default : tame (py_get v k default).
Proof. destruct v; discriminate. Qed.

Lemma tame_py_index v k : tame (py_index v k).
Proof. destruct v; try discriminate. simpl. destruct (dict_get k d); discriminate. Qed.

Lemma tame_py_in k v : tame (py_in k v).
Proof. destruct v; discriminate. Qed.

Lemma tame_get_or v k1 k2 : tame (get_or v k1 k2).
Proof.
  unfold get_or. destruct v; try discriminate. simpl.
  destruct (truthy _); discriminate.
Qed.

Lemma tame_has_truthy v k : tame (has_truthy v k).
Proof.
  unfold has_truthy. destruct v; try discriminate; simpl.
  - destruct (contains k s); discriminate.
  - destruct (existsb _ l); discriminate.
  - unfold dict_mem. destruct (dict_get k d); discriminate.
Qed.

(** Case analysis on a scrutinee that holds no other case analysis. *)
Ltac destruct_innermost :=
  match goal with
  | |- context [match ?x with _ => _ end] =>
      lazymatch x with
      | context [match _ with _ => _ end] => fail
      | _ => destruct x
      end
  end.

Lemma tame_py_float v : tame (py_float v).
Proof.
  unfold tame, py_float, float_of_Z, float_of_string, obind.
  repeat destruct_innermost; discriminate.
Qed.

Lemma tame_py_int v : tame (py_int v).
Proof.
  unfold tame, py_int, Z_of_float, int_of_string, obind.
  repeat destruct_innermost; discriminate.
Qed.

Create HintDb tame.
#[local] Hint Resolve tame_py_get tame_py_index tame_py_in tame_get_or
  tame_has_truthy tame_py_float tame_py_int : tame.

Ltac local_step :=
  first
    [ apply local_ret
    | apply local_set_field
    | apply local_lift; auto with tame
    | apply local_bind; [| intros ?]
    | match goal with
      | |- local (if ?c then _ else _) => destruct c
      end ].

Lemma local_copy_if_truthy api_info k : local (copy_if_truthy api_info k).
Proof. unfold copy_if_truthy. repeat local_step. Qed.

Lemma local_copy_converted api_info k conv :
  (forall v, tame (conv v)) -> local (copy_converted api_info k conv).
Proof. intros Hconv. unfold copy_converted. repeat local_step. Qed.

Lemma local_copy_first api_info field k1 k2 k3 wrap :
  local (copy_first api_info field k1 k2 k3 wrap).
Proof. unfold copy_first. repeat local_step. Qed.

Lemma local_graphql_fields api_info : local (graphql_fields api_info).
Proof.
  unfold graphql_fields.
  repeat first
    [ apply local_copy_if_truthy
    | apply local_copy_first
    | apply local_copy_converted; auto with tame
    | local_step ].
Qed.

(** *** The API information is the one at the first present path *)

Lemma select_first_present (data : dict) (api_info : value) :
  first_present api_paths (VDict data) = Some api_info ->
  select_api_info (VDict data) = Ok api_info.
Proof.
  unfold select_api_info, py_in, py_index, dict_mem. simpl.
  destruct (dict_get "api" data); simpl; [congruence |].
  destruct (dict_get "getApi" data); simpl; [congruence |].
  destruct (dict_get "apiDetails" data); simpl; [congruence |].
  destruct (dict_get "marketplace" data) as [[] |]; simpl; try discriminate.
  destruct (dict_get "api" d); simpl; congruence.
Qed.

(** C6. For a record with a truthy requestId whose fetched body parses
    to an envelope with a data object, the chain of the extractor selects
    what the first present of the four paths [api], [getApi],
    [apiDetails], [marketplace.api] holds; and when that API information
    is usable (truthy) the result of the extractor is its projection
    alone and the client is left as it was after this one body was
    fetched, whatever records follow: they are not scanned. *)
Theorem graphql_selects_first_present_and_stops :
  forall (self : client D) (record envelope data : dict) (request_id : value)
         (text : string) (api_info : value) (rest : list value),
    dict_get "requestId" record = Some request_id ->
    truthy request_id = true ->
    fst (get_response_body request_id self) = Ok (VStr text) ->
    Json.loads_string text = Ok (VDict envelope) ->
    dict_get "data" envelope = Some (VDict data) ->
    first_present api_paths (VDict data) = Some api_info ->
    select_api_info (VDict data) = Ok api_info /\
    (truthy api_info = true ->
     _extract_graphql_data (VDict record :: rest) self =
       run_extractor (graphql_fields api_info)
         (snd (get_response_body request_id self)) /\
     snd (_extract_graphql_data (VDict record :: rest) self) =
       snd (get_response_body request_id self)).
Proof.
  intros self record envelope data request_id text api_info rest
    Hid Htruthy Hbody Hloads Hdata Hfirst.
  pose proof (select_first_present _ _ Hfirst) as Hselect.
  split; [exact Hselect |]. intros Husable.
  assert (Htext : truthy (VStr text) = true).
  { destruct text; [discriminate Hloads | reflexivity]. }
  unfold _extract_graphql_data. rewrite !run_extractor_eq, graphql_loop_cons.
  cbn [py_get]. rewrite Hid, Htruthy, Hbody. cbv beta iota. rewrite Htext.
  cbv beta iota.
  set (s1 := snd (get_response_body request_id self)).
  match goal with
  | |- context [try_json (graphql_parse (VStr text)) ?h ?st] =>
      assert (Hparse : graphql_parse (VStr text) st =
                       bind (graphql_fields api_info) (fun _ => ret true) st);
      [| unfold try_json; rewrite Hparse; unfold bind, ret;
         pose proof (local_graphql_fields api_info [] s1) as Hlocal;
         destruct (graphql_fields api_info st) as [[[] | e] [d' s']];
         cbn [fst snd] in * ]
  end.
  { unfold graphql_parse. cbn [Json.loads]. rewrite Hloads.
    unfold bind at 1, lift at 1. unfold bind at 1, lift at 1.
    cbn [py_in]. unfold dict_mem. rewrite Hdata.
    unfold bind at 1, lift at 1. cbn [py_index]. rewrite Hdata.
    unfold bind at 1, lift at 1. rewrite Hselect, Husable. reflexivity. }
  - destruct Hlocal as [-> _]. split; reflexivity.
  - destruct Hlocal as [-> Htame].
    destruct e; try (split; reflexivity). now elim Htame.
Qed.

(** *** The structured-payload extractor keeps the description it found *)

Lemma keeps_ret k {A} (a : A) : keeps k (ret a).
Proof. intros d self. reflexivity. Qed.

Lemma keeps_lift k {A} (o : outcome A) : keeps k (lift o).
Proof. intros d self. reflexivity. Qed.

Lemma keeps_set_field k k' v : k <> k' -> keeps k (set_field k' v).
Proof. intros Hne d self. simpl. now apply dict_get_set_other. Qed.

Lemma keeps_bind k {A B} (m : X A) (f : A -> X B) :
  keeps k m -> (forall a, keeps k (f a)) -> keeps k (bind m f).
Proof.
  intros Hm Hf d self. unfold bind. specialize (Hm d self).
  destruct (m (d, self)) as [[a | e] [d' s']]; simpl in *; [| exact Hm].
  now rewrite Hf.
Qed.

Lemma keeps_try_json k {A} (m : X A) (h : exn -> X A) :
  keeps k m -> (forall e, keeps k (h e)) -> keeps k (try_json m h).
Proof.
  intros Hm Hh d self. unfold try_json. specialize (Hm d self).
  destruct (m (d, self)) as [[a | e] [d' s']]; simpl in *; [exact Hm |].
  destruct e; simpl; try exact Hm. now rewrite Hh.
Qed.

Lemma keeps_try_except k {A} (m : X A) (h : exn -> X A) :
  keeps k m -> (forall e, keeps k (h e)) -> keeps k (try_except m h).
Proof.
  intros Hm Hh d self. unfold try_except. specialize (Hm d self).
  destruct (m (d, self)) as [[a | e] [d' s']]; simpl in *; [exact Hm |].
  now rewrite Hh.
Qed.

Ltac keeps_step :=
  first
    [ apply keeps_ret
    | apply keeps_lift
    | apply keeps_set_field; discriminate
    | apply keeps_try_json; [| intros ?]
    | apply keeps_bind; [| intros ?]
    | match goal with
      | |- keeps _ (if ?c then _ else _) => destruct c
      | |- keeps _ (match ?x with Some _ => _ | None => _ end) => destruct x
      end ].

(** What [rsc_parse] does after the description: provider, pricing,
    endpoints. *)
Lemma rsc_parse_description (url body : string) (group1 : string) d self :
  Re.search Re.desc_at body = Some group1 ->
  dict_get "description"
    (fst (snd (try_except (rsc_parse (VStr url) (VStr body)) (fun _ => ret tt)
                 (d, self))))
    = Some (VStr group1).
Proof.
  intros Hsearch. unfold rsc_parse. cbn [Re.search_in]. rewrite Hsearch.
  match goal with
  | |- context [try_except (bind (lift (Ok (Some group1))) ?K) ?h ?st] =>
      change (try_except (bind (lift (Ok (Some group1))) K) h st)
        with (try_except (K (Some group1)) h st)
  end.
  cbv beta iota.
  match goal with
  | |- context [try_except (bind (set_field ?k ?v) ?K) ?h (?d0, ?s0)] =>
      change (try_except (bind (set_field k v) K) h (d0, s0))
        with (try_except (K tt) h (dict_set k v d0, s0));
      rewrite (keeps_try_except "description" (K tt) h)
  end.
  - apply dict_get_set_same.
  - repeat keeps_step.
  - intros e. apply keeps_ret.
Qed.

(** One record through the loop of the structured-payload extractor. *)
Lemma rsc_loop_one (record : dict) (request_id : value) (url : string) d self :
  dict_get "requestId" record = Some request_id ->
  truthy request_id = true ->
  dict_get "url" record = Some (VStr url) ->
  contains "/api/" url = true ->
  fst (snd (rsc_loop [VDict record] (d, self))) =
    match fst (get_response_body request_id self) with
    | Ok body =>
        if truthy body then
          fst (snd (try_except (rsc_parse (VStr url) body) (fun _ => ret tt)
                      (d, snd (get_response_body request_id self))))
        else d
    | Raise _ => d
    end.
Proof.
  intros Hid Htruthy Hurl Hapi.
  cbn [rsc_loop]. unfold bind at 1, lift at 1. cbn [py_get]. rewrite Hid.
  unfold bind at 1, lift at 1. rewrite Hurl.
  unfold bind at 1. rewrite Htruthy. unfold lift at 1. cbn [py_in]. rewrite Hapi.
  unfold bind at 1. unfold bind at 1, fetch_body, on_snd. cbn [fst snd].
  destruct (get_response_body request_id self) as [[body | e] s1]; cbn [fst snd];
    [| reflexivity].
  destruct (truthy body); [| reflexivity].
  destruct (try_except (rsc_parse (VStr url) body) (fun _ => ret tt) (d, s1))
    as [[[] | e] [d' s']]; reflexivity.
Qed.

(** C9, as the code has it. For a response record whose requestId is
    truthy (not [None], not empty), whose url holds [/api/] and whose
    fetched body holds the text of the example at the first occurrence of
    the pattern, the structured-payload extractor run on that record
    returns a mapping whose description is the text between the quotes. *)
Theorem rsc_extracts_description :
  forall (self : client D) (record : dict) (request_id : value)
         (host path before after : string),
    dict_get "requestId" record = Some request_id ->
    truthy request_id = true ->
    dict_get "url" record = Some (VStr (host ++ "/api/" ++ path)%string) ->
    fst (get_response_body request_id self)
      = Ok (VStr (before ++ Examples.weather_text ++ after)%string) ->
    first_occurrence_at Re.desc_prefix
      (before ++ Examples.weather_text ++ after)%string (String.length before) ->
    exists enhanced_data : dict,
      fst (_extract_rsc_data [VDict record] self) = Ok enhanced_data /\
      dict_get "description" enhanced_data = Some (VStr "Free weather data").
Proof.
  intros self record request_id host path before after
    Hid Htruthy Hurl Hbody Hfirst.
  unfold _extract_rsc_data. rewrite run_extractor_eq. cbn [fst].
  eexists. split; [reflexivity |].
  rewrite (rsc_loop_one record request_id _ _ _ Hid Htruthy Hurl
             (contains_app "/api/" host path)).
  rewrite Hbody.
  assert (Hfull : truthy (VStr (before ++ Examples.weather_text ++ after)%string) = true).
  { destruct before; reflexivity. }
  rewrite Hfull.
  apply rsc_parse_description.
  apply search_desc_first; [exact Hfirst | apply desc_at_weather].
Qed.

End WithDriver.
End ExtractorFacts.

(** * The properties on the examples *)

Module Checks.
Import Text Py Monad Client Spec Examples.
Import BufferFacts ControllerFacts DictFacts FilterFacts ExtractorFacts.
Local Open Scope list_scope.

(** C1 on three request events and a cap of two: the buffer ends within
    the cap, holding the records of the last two events. *)
Lemma buffer_keeps_latest_witness :
  Z.of_nat (List.length (buffer RequestHandler (after_events three_requests small_client)))
    <= 2 /\
  buffer RequestHandler (after_events three_requests small_client)
    = lastn 2 (inserted RequestHandler three_requests).
Proof.
  destruct (buffer_keeps_latest_within_cap small_client three_requests RequestHandler)
    as [Hbound Hlatest].
  - simpl. lia.
  - simpl. lia.
  - split; [exact Hbound |].
    apply Hlatest. repeat constructor; eexists; reflexivity.
Defined.

(** C10 on the full buffer of two records and an event whose [params] is
    not a dict: the record of [a] is gone and nothing is appended. *)
Lemma eviction_precedes_projection_witness :
  buffer RequestHandler (snd (dispatch malformed_event full_client))
    = inserted RequestHandler [request_event "b"] /\
  S (List.length (buffer RequestHandler (snd (dispatch malformed_event full_client))))
    = List.length (buffer RequestHandler full_client).
Proof.
  apply (eviction_precedes_projection full_client malformed_event
           (VDict [("requestId", VStr "a"); ("url", VNone); ("method", VNone);
                   ("headers", VDict []); ("timestamp", VNone); ("type", VNone);
                   ("postData", VNone)])
           (inserted RequestHandler [request_event "b"])
           AttributeError).
  - reflexivity.
  - simpl. lia.
  - reflexivity.
Defined.

(** C2 on the code: the record that [_network_response_handler] stores
    for an event without a url makes the filtered read raise. *)
Lemma null_url_breaks_filter_witness :
  get_network_responses (Some "graphql"%string) client_with_null_url
    = (Raise AttributeError, client_with_null_url).
Proof.
  apply (null_url_breaks_filter client_with_null_url "graphql"
           (VDict [("requestId", VStr "1"); ("url", VNone); ("status", VNone);
                   ("statusText", VNone); ("headers", VDict []);
                   ("mimeType", VNone); ("timestamp", VNone); ("type", VNone)])
           [("requestId", VStr "1"); ("url", VNone); ("status", VNone);
            ("statusText", VNone); ("headers", VDict []);
            ("mimeType", VNone); ("timestamp", VNone); ("type", VNone)]).
  - discriminate.
  - left. reflexivity.
  - reflexivity.
  - reflexivity.
Defined.

(** C3 as stated fails: in a world whose disable command raises, the stop
    call returns [False] and the flag is still [True] afterwards; the
    second stop call sends the command again instead of returning early. *)
Lemma stop_failure_leaves_flag_set :
  fst (stop_network_monitoring (client_of no_cdp tt true 1000)) = Ok false /\
  network_monitoring (snd (stop_network_monitoring (client_of no_cdp tt true 1000)))
    = true /\
  calls (snd (stop_network_monitoring
                (snd (stop_network_monitoring (client_of no_cdp tt true 1000)))))
    = [ExecuteCdpCmd "Network.disable" (VDict []);
       ExecuteCdpCmd "Network.disable" (VDict [])].
Proof. repeat split; reflexivity. Qed.

Lemma stop_failure_keeps_monitoring_witness :
  fst (stop_network_monitoring (client_of no_cdp tt true 1000)) = Ok false /\
  network_monitoring (snd (stop_network_monitoring (client_of no_cdp tt true 1000)))
    = true.
Proof.
  destruct (stop_failure_keeps_monitoring (client_of no_cdp tt true 1000)
              (DriverError "cdp") eq_refl eq_refl eq_refl) as (Hfalse & Hflag & _).
  split; assumption.
Defined.

(** C8 on a monitoring client and on a stopped one. *)
Lemma start_stop_idempotent_witness :
  start_network_monitoring (client_of no_cdp tt true 1000)
    = (Ok true, client_of no_cdp tt true 1000) /\
  stop_network_monitoring (client_of no_cdp tt false 1000)
    = (Ok true, client_of no_cdp tt false 1000).
Proof.
  split.
  - apply (proj1 (start_stop_idempotent (client_of no_cdp tt true 1000))).
    reflexivity.
  - apply (proj2 (start_stop_idempotent (client_of no_cdp tt false 1000))).
    reflexivity.
Defined.

(** C7 in a world whose [Network.enable] raises: the result is the one of
    the static assessment and the flag is [False]. *)
Lemma start_failure_returns_static_witness :
  assess_api_enhanced "https://rapidapi.com/weatherapi/api/weather" (init (D := no_cdp) tt)
    = call_out (AssessApi "https://rapidapi.com/weatherapi/api/weather")
        (snd (start_network_monitoring (snd (clear_network_data (init (D := no_cdp) tt))))) /\
  network_monitoring
    (snd (assess_api_enhanced "https://rapidapi.com/weatherapi/api/weather"
            (init (D := no_cdp) tt))) = false.
Proof.
  apply (start_failure_returns_static (init (D := no_cdp) tt)
           "https://rapidapi.com/weatherapi/api/weather").
  reflexivity.
Defined.

(** C4 as stated fails: both extractors produce [endpoints], the GraphQL
    value is the empty list (a body whose [methods] is empty), and the
    merged result holds the value of the static assessment, which is not
    the GraphQL value. *)
Lemma merge_drops_falsy_graphql_value :
  fst (_extract_rsc_data [VDict (api_record "r1")] (client_of two_bodies tt true 1000))
    = Ok [("provider", VStr "weatherapi"); ("endpoints", VList [VStr "/current"])] /\
  fst (_extract_graphql_data [VDict (graphql_record "g1")]
         (client_of two_bodies tt true 1000))
    = Ok graphql_output /\
  dict_get "endpoints" graphql_output = Some (VList []) /\
  merge (absorb (absorb [] [("provider", VStr "weatherapi");
                            ("endpoints", VList [VStr "/current"])])
           graphql_output)
    (VDict static_result)
    = Ok (VDict [("endpoints", VList [VStr "/static"]);
                 ("provider", VStr "weatherapi");
                 ("name", VStr "Weather API")]) /\
  py_eq (VList [VStr "/static"]) (VList []) = false.
Proof. repeat split; vm_compute; reflexivity. Qed.

Lemma merge_overwrites_truthy_changed_witness :
  exists merged : dict,
    merge (absorb (absorb [] rsc_output) graphql_output) (VDict static_result)
      = Ok (VDict merged) /\
    dict_get "endpoints" merged = dict_get "endpoints" static_result /\
    dict_get "name" merged = Some (VStr "Weather API").
Proof.
  destruct (merge_overwrites_truthy_changed static_result rsc_output graphql_output)
    as (merged & Hrun & Hkeys).
  - repeat constructor; simpl; intuition discriminate.
  - repeat constructor; simpl; intuition discriminate.
  - exists merged. split; [exact Hrun |]. split.
    + destruct (Hkeys "endpoints"%string) as (_ & _ & Hgql).
      exact (Hgql (VList []) eq_refl).
    + destruct (Hkeys "name"%string) as (_ & _ & Hgql).
      exact (Hgql (VStr "Weather API") eq_refl).
Defined.

(** C5 as stated fails: the empty str is a requestId that is not [None],
    the body fetched for it is the JSON text of the example, and the
    extractor skips the record and returns an empty mapping. *)
Lemma graphql_skips_empty_request_id :
  dict_get "requestId" (graphql_record "") = Some (VStr "") /\
  is_not_none (VStr "") = true /\
  fst (get_response_body (VStr "") (client_of (serving weather_body) tt true 1000))
    = Ok (VStr weather_body) /\
  fst (_extract_graphql_data [VDict (graphql_record "")]
         (client_of (serving weather_body) tt true 1000))
    = Ok [].
Proof. repeat split; vm_compute; reflexivity. Qed.

Lemma graphql_extracts_weather_witness :
  fst (_extract_graphql_data [VDict (graphql_record "42")]
         (client_of (serving weather_body) tt true 1000))
    = Ok [("name", VStr "Weather API"); ("rating", VFloat 4.5%float);
          ("reviewCount", VInt 120)].
Proof.
  apply (graphql_extracts_weather (client_of (serving weather_body) tt true 1000)
           (graphql_record "42") (VStr "42") []).
  - reflexivity.
  - reflexivity.
  - reflexivity.
Defined.

(** C6 on the body of the example followed by a second record: the API
    information is the one under [data.api] and the second record is not
    scanned. *)
Lemma graphql_selects_first_present_witness :
  select_api_info (VDict weather_data) = Ok weather_api_info /\
  snd (_extract_graphql_data [VDict (graphql_record "42"); VDict (graphql_record "43")]
         (client_of (serving weather_body) tt true 1000))
    = snd (get_response_body (VStr "42") (client_of (serving weather_body) tt true 1000)).
Proof.
  destruct (graphql_selects_first_present_and_stops
              (client_of (serving weather_body) tt true 1000)
              (graphql_record "42") weather_envelope weather_data (VStr "42")
              weather_body weather_api_info [VDict (graphql_record "43")])
    as [Hselect Hstop].
  - reflexivity.
  - reflexivity.
  - reflexivity.
  - vm_compute. reflexivity.
  - reflexivity.
  - reflexivity.
  - split; [exact Hselect |]. apply Hstop. reflexivity.
Defined.

(** C9 as stated fails: the empty str is a requestId that is not [None];
    the url holds [/api/], the body fetched holds the text of the example,
    and the extractor skips the record and returns an empty mapping. And
    with a requestId that is taken, a body that holds the text of the
    example after another match of the pattern gives the description of
    that first match. *)
Lemma rsc_skips_empty_request_id :
  (dict_get "requestId" (api_record "") = Some (VStr "") /\
   is_not_none (VStr "") = true /\
   py_in "/api/" (VStr "https://rapidapi.com/weatherapi/api/weather/endpoints") = Ok true /\
   fst (get_response_body (VStr "") (client_of (serving weather_payload) tt true 1000))
     = Ok (VStr weather_payload) /\
   contains weather_text weather_payload = true /\
   fst (_extract_rsc_data [VDict (api_record "")]
          (client_of (serving weather_payload) tt true 1000))
     = Ok []) /\
  (contains weather_text two_descriptions = true /\
   fst (_extract_rsc_data [VDict (api_record "7")]
          (client_of (serving two_descriptions) tt true 1000))
     = Ok [("description", VStr "Other text"); ("provider", VStr "weatherapi")]).
Proof. repeat split; vm_compute; reflexivity. Qed.

Lemma rsc_extracts_description_witness :
  exists enhanced_data : dict,
    fst (_extract_rsc_data [VDict (api_record "7")]
           (client_of (serving weather_payload) tt true 1000))
      = Ok enhanced_data /\
    dict_get "description" enhanced_data = Some (VStr "Free weather data").
Proof.
  apply (rsc_extracts_description (client_of (serving weather_payload) tt true 1000)
           (api_record "7") (VStr "7")
           "https://rapidapi.com/weatherapi" "weather/endpoints" "0:" "}").
  - reflexivity.
  - reflexivity.
  - reflexivity.
  - reflexivity.
  - intros before rest Heq.
    destruct before as [| c1 [| c2 before]]; simpl; try lia;
      vm_compute in Heq; discriminate Heq.
Defined.

End Checks.

(** * Further properties of the buffer, the normalizer and the fetcher *)

Module MoreBufferFacts.
Import Text Py Monad Client Spec Extensions BufferFacts ControllerFacts.
Local Open Scope list_scope.

Section Lists.
Context {A : Type}.

Lemma skipn_snoc (k : nat) (l : list A) (x : A) :
  (k <= List.length l)%nat -> skipn k l ++ [x] = skipn k (l ++ [x]).
Proof.
  intros Hk. rewrite skipn_app.
  replace (k - List.length l)%nat with 0%nat by lia. reflexivity.
Qed.

Lemma skipn_tail (k : nat) (l : list A) : tl (skipn k l) = skipn (S k) l.
Proof.
  revert l. induction k as [| k IH]; intros [| x l]; try reflexivity.
  - simpl. apply IH.
Qed.

Lemma skipn_clip (k : nat) (l : list A) :
  skipn k l = skipn (Nat.min k (List.length l)) l.
Proof.
  destruct (Nat.le_gt_cases k (List.length l)) as [Hle | Hgt].
  - now rewrite Nat.min_l.
  - rewrite Nat.min_r by lia. rewrite !skipn_all2; trivial; lia.
Qed.

End Lists.

Section WithDriver.
Context {D : Driver}.
Implicit Types (self : client D) (e : event) (h : handler).

(** X1. A callback never raises and changes nothing but its own buffer. *)
Theorem callback_never_raises :
  forall (self : client D) (e : event),
    fst (dispatch e self) = Ok tt /\
    network_monitoring (snd (dispatch e self)) = network_monitoring self /\
    max_network_entries (snd (dispatch e self)) = max_network_entries self /\
    world (snd (dispatch e self)) = world self /\
    calls (snd (dispatch e self)) = calls self /\
    (forall h, h <> callback_of e ->
               buffer h (snd (dispatch e self)) = buffer h self).
Proof.
  intros self e. split; [| exact (dispatch_frame e self)].
  destruct e as [message | message]; simpl;
    unfold _network_request_handler, _network_response_handler, try_except, ret;
    match goal with
    | |- context [match ?m self with _ => _ end] =>
        destruct (m self) as [[[] | err] s']
    end; reflexivity.
Qed.

(** One callback moves the suffix that the buffer is. *)
Lemma dispatch_suffix h e self (all : list value) (k : nat) :
  buffer h self = skipn k all ->
  exists k', buffer h (snd (dispatch e self)) = skipn k' (all ++ inserted h [e]).
Proof.
  intros Hbuf. rewrite skipn_clip in Hbuf.
  set (k0 := Nat.min k (List.length all)) in *.
  assert (Hk0 : (k0 <= List.length all)%nat) by (unfold k0; lia).
  simpl. destruct (same_callback h e) eqn:Hsame.
  - apply same_callback_spec in Hsame. subst h. rewrite dispatch_buffer, Hbuf.
    destruct (Z.of_nat (List.length (skipn k0 all)) >=? max_network_entries self).
    + destruct (skipn k0 all) as [| oldest kept] eqn:Hskip.
      * exists (List.length (all ++ match projection e with
                                  | Ok record => [record]
                                  | Raise _ => []
                                  end)).
        rewrite skipn_all. reflexivity.
      * assert (Hkept : kept = skipn (S k0) all).
        { rewrite <- skipn_tail, Hskip. reflexivity. }
        assert (Hlt : (S k0 <= List.length all)%nat).
        { destruct (Nat.le_gt_cases (S k0) (List.length all)); trivial.
          assert (Hend : k0 = List.length all) by lia.
          rewrite Hend, skipn_all in Hskip. discriminate. }
        exists (S k0). destruct (projection e).
        -- rewrite Hkept. now apply skipn_snoc.
        -- now rewrite app_nil_r.
    + exists k0. destruct (projection e).
      * now apply skipn_snoc.
      * now rewrite app_nil_r.
  - assert (Hne : h <> callback_of e).
    { intros Heq. apply same_callback_spec in Heq. congruence. }
    destruct (dispatch_frame e self) as (_ & _ & _ & _ & Hother).
    rewrite (Hother h Hne), app_nil_r. now exists k0.
Qed.

(** X2. Whatever the events and the cap, a buffer holds a run of the most
    recent records inserted into it, in arrival order. *)
Theorem buffer_is_recent_suffix :
  forall (self : client D) (events : list event) (h : handler),
    exists k : nat,
      buffer h (after_events events self)
        = skipn k (buffer h self ++ inserted h events).
Proof.
  intros self events h.
  enough (Hgen : forall (all : list value) (k : nat) (s : client D),
             buffer h s = skipn k all ->
             exists k', buffer h (after_events events s)
                        = skipn k' (all ++ inserted h events)).
  { apply (Hgen (buffer h self) 0%nat self). reflexivity. }
  induction events as [| e events IH]; intros all k s Hbuf.
  - exists k. unfold after_events. simpl. now rewrite app_nil_r.
  - unfold after_events in *. rewrite deliver_cons.
    destruct (dispatch_suffix h e s all k Hbuf) as [k1 Hstep].
    destruct (IH _ _ _ Hstep) as [k2 Hrest].
    exists k2. rewrite Hrest, <- app_assoc. f_equal. f_equal.
    simpl. destruct (same_callback h e); [| reflexivity].
    destruct (projection e); reflexivity.
Qed.

(** X3. The record of an event that could be projected is a dict with the
    keys of its kind, in their order; [url] is always among them. *)
Theorem record_has_fixed_keys :
  forall (e : event) (record : value),
    projection e = Ok record ->
    exists d : dict,
      record = VDict d /\
      map fst d = record_keys (callback_of e) /\
      dict_mem "url" d = true.
Proof.
  intros e record Hproj.
  destruct e as [message | message]; simpl in Hproj;
    unfold request_data, response_data, obind in Hproj;
    repeat match type of Hproj with
    | context [match ?x with _ => _ end] =>
        lazymatch x with
        | context [match _ with _ => _ end] => fail
        | _ => destruct x; try discriminate Hproj
        end
    end;
    injection Hproj as <-; eexists; repeat split; reflexivity.
Qed.



End WithDriver.
End MoreBufferFacts.

(** * Further properties of the fetcher, the controller and the orchestrator *)

Module MoreControllerFacts.
Import Text Py Monad Client Spec Extensions BufferFacts ControllerFacts.
Local Open Scope list_scope.

Section WithDriver.
Context {D : Driver}.
Implicit Types (self : client D) (c : call).

(** X5. A sub-object that is present but is not a dict makes the
    projection of a CDP envelope raise, so the event is dropped; a missing
    sub-object gives a record with empty fields. *)
Theorem envelope_needs_dict_sub_object :
  forall (m p : dict),
    dict_get "params" m = Some (VDict p) ->
    (forall r, dict_get "request" p = Some r ->
               (forall d, r <> VDict d) ->
               request_data (VDict m) = Raise AttributeError) /\
    (dict_get "request" p = None ->
     request_data (VDict m) =
       Ok (VDict [("requestId", existing "requestId" p); ("url", VNone);
                  ("method", VNone); ("headers", VDict []);
                  ("timestamp", existing "timestamp" p);
                  ("type", existing "type" p); ("postData", VNone)])) /\
    (forall r, dict_get "response" p = Some r ->
               (forall d, r <> VDict d) ->
               response_data (VDict m) = Raise AttributeError) /\
    (dict_get "response" p = None ->
     response_data (VDict m) =
       Ok (VDict [("requestId", existing "requestId" p); ("url", VNone);
                  ("status", VNone); ("statusText", VNone);
                  ("headers", VDict []); ("mimeType", VNone);
                  ("timestamp", existing "timestamp" p);
                  ("type", existing "type" p)])).
Proof.
  intros m p Hparams.
  unfold request_data, response_data, is_cdp_envelope, dict_mem, nested_get,
    existing.
  rewrite Hparams. cbn [py_index]. rewrite Hparams. cbn [obind py_get].
  repeat split.
  - intros r Hr Hnot. rewrite Hr.
    destruct r; try reflexivity. now elim (Hnot d).
  - intros Hr. rewrite Hr. reflexivity.
  - intros r Hr Hnot. rewrite Hr.
    destruct r; try reflexivity. now elim (Hnot d).
  - intros Hr. rewrite Hr. reflexivity.
Qed.

(** [get_response_body], by the flag and the driver handle it finds. *)
Lemma get_response_body_unfold self (request_id : value) :
  get_response_body request_id self =
    if network_monitoring self then
      if has_driver (world self) then
        (Ok match fst (call_out (ExecuteCdpCmd "Network.getResponseBody"
                                   (VDict [("requestId", request_id)])) self) with
            | Ok (VDict result) => existing "body" result
            | _ => VNone
            end,
         snd (call_out (ExecuteCdpCmd "Network.getResponseBody"
                          (VDict [("requestId", request_id)])) self))
      else (Ok VNone, self)
    else (Ok VNone, self).
Proof.
  unfold get_response_body, try_except, bind, gets, lift, ret.
  destruct (network_monitoring self); [| reflexivity]. cbn [negb].
  destruct (has_driver (world self)); [| reflexivity].
  destruct (call_out _ self) as [[[] | e] s']; reflexivity.
Qed.

(** X6. [get_response_body] never raises. It answers [None] without any
    call when monitoring is off or there is no driver, and otherwise the
    [body] of the driver's answer, or [None] when the driver raises or
    answers something that is not a dict. *)
Theorem response_body_never_raises :
  forall (self : client D) (request_id : value),
    fst (get_response_body request_id self) =
      Ok (if network_monitoring self && has_driver (world self) then
            match fst (fst (external
                              (ExecuteCdpCmd "Network.getResponseBody"
                                 (VDict [("requestId", request_id)]))
                              (world self))) with
            | Ok (VDict result) => existing "body" result
            | _ => VNone
            end
          else VNone) /\
    (network_monitoring self && has_driver (world self) = false ->
     snd (get_response_body request_id self) = self).
Proof.
  intros self request_id. rewrite get_response_body_unfold.
  destruct (network_monitoring self); [| split; reflexivity].
  destruct (has_driver (world self)); [| split; reflexivity].
  destruct (call_out_spec (ExecuteCdpCmd "Network.getResponseBody"
                             (VDict [("requestId", request_id)])) self)
    as (Hres & _).
  rewrite <- Hres. split; [reflexivity | discriminate].
Qed.

(** The controller never raises. *)
Lemma stop_never_raises self :
  exists b, fst (stop_network_monitoring self) = Ok b.
Proof.
  rewrite stop_unfold.
  destruct (network_monitoring self); [| now exists true].
  destruct (has_driver (world self)); [| now exists true].
  destruct (fst (call_out _ self)); [now exists true | now exists false].
Qed.

(** X7. On a stopped client whose world answers every call, start returns
    [True], sets the flag and has made four calls: the driver is asked
    for, the Network domain enabled, the two listeners registered. *)
Theorem start_succeeds_on_healthy_driver :
  healthy ->
  forall (self : client D),
    network_monitoring self = false ->
    fst (start_network_monitoring self) = Ok true /\
    network_monitoring (snd (start_network_monitoring self)) = true /\
    calls (snd (start_network_monitoring self)) =
      calls self ++
      [GetChromeDriver;
       ExecuteCdpCmd "Network.enable" (VDict []);
       AddCdpListener "Network.requestWillBeSent" RequestHandler;
       AddCdpListener "Network.responseReceived" ResponseHandler].
Proof.
  intros Hhealthy self Hflag.
  rewrite start_unfold, Hflag. unfold try_except.
  repeat match goal with
  | |- context [bind (call_out ?c) ?k ?s] =>
      rewrite (bind_call_out c k s);
      let Hres := fresh "Hres" in
      let Hcalls := fresh "Hcalls" in
      destruct (call_out_spec c s) as (Hres & _ & _ & Hcalls & _);
      let v := fresh "v" in
      let Hv := fresh "Hv" in
      destruct (Hhealthy c (world s)) as [v Hv];
      rewrite Hv in Hres;
      destruct (call_out c s) as [[? | ?] ?]; cbn [fst snd] in *;
      [| discriminate Hres]
  end.
  cbn. repeat split.
  repeat match goal with H : calls _ = _ |- _ => rewrite H; clear H end.
  rewrite <- !app_assoc. reflexivity.
Qed.

(** X8. When the driver is obtained and [Network.enable] raises, start
    returns [False], the flag stays [False] and no listener is
    registered. *)
Theorem failed_enable_registers_nothing :
  forall (self : client D) (driver : value) (err : exn),
    network_monitoring self = false ->
    fst (fst (external GetChromeDriver (world self))) = Ok driver ->
    fst (fst (external (ExecuteCdpCmd "Network.enable" (VDict []))
                (snd (external GetChromeDriver (world self))))) = Raise err ->
    fst (start_network_monitoring self) = Ok false /\
    network_monitoring (snd (start_network_monitoring self)) = false /\
    calls (snd (start_network_monitoring self)) =
      calls self ++ [GetChromeDriver; ExecuteCdpCmd "Network.enable" (VDict [])].
Proof.
  intros self driver err Hflag Hdriver Henable.
  rewrite start_unfold, Hflag. unfold try_except.
  rewrite bind_call_out.
  destruct (call_out_spec GetChromeDriver self) as (Hres & Hmon & _ & Hcalls & Hworld).
  rewrite Hdriver in Hres.
  destruct (call_out GetChromeDriver self) as [[v | e] s1]; cbn [fst snd] in *;
    [| discriminate Hres].
  rewrite bind_call_out.
  destruct (call_out_spec (ExecuteCdpCmd "Network.enable" (VDict [])) s1)
    as (Hres2 & Hmon2 & _ & Hcalls2 & _).
  rewrite Hworld, Henable in Hres2.
  destruct (call_out _ s1) as [[v2 | e2] s2]; cbn [fst snd] in *;
    [discriminate Hres2 |].
  split; [reflexivity |]. split; cbn [ret fst snd].
  - congruence.
  - rewrite Hcalls2, Hcalls, <- app_assoc. reflexivity.
Qed.

(** X9. With monitoring active, stop returns [True] and resets the flag
    when there is no driver handle (no command is sent) or when the
    disable command returns. *)
Theorem stop_resets_flag :
  forall (self : client D),
    network_monitoring self = true ->
    (has_driver (world self) = true ->
     exists v, fst (fst (external (ExecuteCdpCmd "Network.disable" (VDict []))
                           (world self))) = Ok v) ->
    fst (stop_network_monitoring self) = Ok true /\
    network_monitoring (snd (stop_network_monitoring self)) = false /\
    calls (snd (stop_network_monitoring self)) =
      calls self ++
      (if has_driver (world self)
       then [ExecuteCdpCmd "Network.disable" (VDict [])] else []).
Proof.
  intros self Hflag Hok. rewrite stop_unfold, Hflag.
  destruct (has_driver (world self)).
  - destruct (Hok eq_refl) as [v Hv].
    destruct (call_out_spec (ExecuteCdpCmd "Network.disable" (VDict [])) self)
      as (Hres & _ & _ & Hcalls & _).
    rewrite Hv in Hres.
    destruct (call_out _ self) as [[v' | e] s']; cbn [fst snd] in *;
      [| discriminate Hres].
    repeat split. exact Hcalls.
  - repeat split. cbn. now rewrite app_nil_r.
Qed.

(** X10. [close] always reaches the parent's [close]: on a stopped client
    at once, on a monitoring one after the stop call, whatever that call
    returned. *)
Theorem close_reaches_parent :
  forall (super_close : M D unit) (self : client D),
    close super_close self =
      super_close (if network_monitoring self
                   then snd (stop_network_monitoring self) else self).
Proof.
  intros super_close self. unfold close, bind at 1, gets. cbv iota beta.
  destruct (network_monitoring self) eqn:Hflag; [| reflexivity].
  rewrite bind_eq, bind_eq.
  destruct (stop_never_raises self) as [b Hb]. rewrite Hb. reflexivity.
Qed.


End WithDriver.
End MoreControllerFacts.

(** * Further properties of the payload extractors *)

Module MoreExtractorFacts.
Import Text Py Monad Client Spec Frames Extensions.
Import ControllerFacts DictFacts ExtractorFacts MoreControllerFacts.
Local Open Scope list_scope.

(** *** Properties of a dict kept by an assignment *)

Lemma keys_within_set allowed k v (d : dict) :
  In k allowed -> keys_within allowed d -> keys_within allowed (dict_set k v d).
Proof.
  intros Hk Hd k' Hin. rewrite dict_set_keys in Hin.
  destruct (dict_mem k d); [now apply Hd |].
  apply in_app_or in Hin as [Hin | [<- | []]]; [now apply Hd | exact Hk].
Qed.

Lemma field_is_set_other k k' (P : value -> Prop) v (d : dict) :
  k <> k' -> field_is k P d -> field_is k P (dict_set k' v d).
Proof.
  intros Hne Hd x Hx. rewrite (dict_get_set_other _ _ _ _ Hne) in Hx. now apply Hd.
Qed.

Lemma field_is_set_same k (P : value -> Prop) v (d : dict) :
  P v -> field_is k P (dict_set k v d).
Proof. intros Hv x Hx. rewrite dict_get_set_same in Hx. congruence. Qed.

Lemma field_is_empty k (P : value -> Prop) : field_is k P [].
Proof. intros x Hx. discriminate. Qed.

(** *** What the patterns capture *)

Lemma until_excludes stop (s run rest : string) :
  Re.until stop s = Some (run, rest) ->
  contains (String stop EmptyString) run = false.
Proof.
  revert run rest. induction s as [| c s IH]; intros run rest; simpl; [discriminate |].
  destruct (Ascii.eqb_spec c stop) as [-> | Hne].
  - intros [= <- <-]. reflexivity.
  - destruct (Re.until stop s) as [[run' rest'] |]; [| discriminate].
    intros [= <- <-]. simpl. unfold starts_with at 1. simpl.
    destruct (Ascii.eqb_spec stop c) as [-> | _]; [contradiction |].
    simpl. now apply (IH run' rest').
Qed.

Lemma search_some {A} (at_head : string -> option A) (s : string) (x : A) :
  Re.search at_head s = Some x ->
  exists before rest, s = (before ++ rest)%string /\ at_head rest = Some x.
Proof.
  induction s as [| c s IH]; simpl.
  - destruct (at_head EmptyString) eqn:Hat; [| discriminate].
    intros [= <-]. now exists EmptyString, EmptyString.
  - destruct (at_head (String c s)) eqn:Hat.
    + intros [= <-]. now exists EmptyString, (String c s).
    + intros Hs. destruct (IH Hs) as (before & rest & -> & Hrest).
      now exists (String c before), rest.
Qed.

(** The provider is the path segment after the host: it is not empty, it
    holds no slash, and the url reads host, segment, slash. *)
Lemma provider_is_segment (url provider : string) :
  Re.search Re.provider_at url = Some provider ->
  provider <> ""%string /\
  contains "/" provider = false /\
  exists before rest,
    url = (before ++ "rapidapi.com/" ++ provider ++ "/" ++ rest)%string.
Proof.
  intros Hsearch.
  destruct (search_some _ _ _ Hsearch) as (before & tail & -> & Hat).
  unfold Re.provider_at in Hat.
  destruct (strip_prefix "rapidapi.com/" tail) as [r |] eqn:Hstrip; [| discriminate].
  destruct (Re.until "/" r) as [[[| c run] rest] |] eqn:Huntil; try discriminate.
  injection Hat as <-.
  repeat split.
  - discriminate.
  - exact (until_excludes _ _ _ _ Huntil).
  - exists before, rest. apply strip_prefix_some in Hstrip. subst tail.
    f_equal. f_equal.
    clear -Huntil. revert Huntil. generalize (String c run) as g.
    revert rest. induction r as [| x r IH]; intros rest g; simpl; [discriminate |].
    destruct (Ascii.eqb_spec x "/"%char) as [-> | Hne].
    + intros [= <- <-]. reflexivity.
    + destruct (Re.until "/" r) as [[run' rest'] |] eqn:Hr; [| discriminate].
      intros [= <- <-]. simpl. f_equal. now apply IH.
Qed.

Lemma description_has_no_quote (body group1 : string) :
  Re.search Re.desc_at body = Some group1 ->
  contains (String dquote EmptyString) group1 = false.
Proof.
  intros Hsearch.
  destruct (search_some _ _ _ Hsearch) as (before & tail & -> & Hat).
  unfold Re.desc_at in Hat.
  destruct (strip_prefix Re.desc_prefix tail) as [r |]; [| discriminate].
  destruct (Re.until dquote r) as [[run rest] |] eqn:Huntil; [| discriminate].
  injection Hat as <-. exact (until_excludes _ _ _ _ Huntil).
Qed.

Section WithDriver.
Context {D : Driver}.
Implicit Types (self : client D) (d : dict).

(** *** Steps that keep a property of the dict *)

Lemma preserves_ret (P : dict -> Prop) {A} (a : A) : preserves P (ret a).
Proof. intros d self Hd. exact Hd. Qed.

Lemma preserves_lift (P : dict -> Prop) {A} (o : outcome A) : preserves P (lift o).
Proof. intros d self Hd. exact Hd. Qed.

Lemma preserves_fetch (P : dict -> Prop) request_id :
  preserves P (fetch_body request_id).
Proof.
  intros d self Hd. unfold fetch_body, on_snd. cbn [fst snd].
  destruct (get_response_body request_id self). exact Hd.
Qed.

Lemma preserves_set_field (P : dict -> Prop) k v :
  (forall d, P d -> P (dict_set k v d)) -> preserves P (set_field k v).
Proof. intros Hset d self Hd. now apply Hset. Qed.

Lemma preserves_bind (P : dict -> Prop) {A B} (m : X A) (f : A -> X B) :
  preserves P m -> (forall a, preserves P (f a)) -> preserves P (bind m f).
Proof.
  intros Hm Hf d self Hd. unfold bind. specialize (Hm d self Hd).
  destruct (m (d, self)) as [[a | e] [d' s']]; cbn [fst snd] in *; [| exact Hm].
  now apply Hf.
Qed.

(** A pure step hands its value, and the fact that it returned it, to
    what follows. *)
Lemma preserves_bind_lift (P : dict -> Prop) {A B} (o : outcome A) (f : A -> X B) :
  (forall a, o = Ok a -> preserves P (f a)) -> preserves P (bind (lift o) f).
Proof.
  intros Hf d self Hd. unfold bind, lift.
  destruct o as [a | e]; [| exact Hd]. now apply Hf.
Qed.

Lemma preserves_try_json (P : dict -> Prop) {A} (m : X A) (h : exn -> X A) :
  preserves P m -> (forall e, preserves P (h e)) -> preserves P (try_json m h).
Proof.
  intros Hm Hh d self Hd. unfold try_json. specialize (Hm d self Hd).
  destruct (m (d, self)) as [[a | e] [d' s']]; cbn [fst snd] in *; [exact Hm |].
  destruct e; try exact Hm. now apply Hh.
Qed.

Lemma preserves_try_except (P : dict -> Prop) {A} (m : X A) (h : exn -> X A) :
  preserves P m -> (forall e, preserves P (h e)) -> preserves P (try_except m h).
Proof.
  intros Hm Hh d self Hd. unfold try_except. specialize (Hm d self Hd).
  destruct (m (d, self)) as [[a | e] [d' s']]; cbn [fst snd] in *; [exact Hm |].
  now apply Hh.
Qed.

Ltac preserves_step :=
  first
    [ apply preserves_ret
    | apply preserves_lift
    | apply preserves_fetch
    | apply preserves_try_json; [| intros ?]
    | apply preserves_try_except; [| intros ?]
    | apply preserves_bind_lift; intros ? ?
    | apply preserves_bind; [| intros ?]
    | match goal with
      | |- preserves _ (if ?c then _ else _) => destruct c eqn:?
      | |- preserves _ (match ?x with Some _ => _ | None => _ end) => destruct x eqn:?
      end ].

Lemma search_in_some at_head v (group1 : string) :
  Re.search_in at_head v = Ok (Some group1) ->
  exists s, v = VStr s /\ Re.search at_head s = Some group1.
Proof. destruct v; try discriminate. intros [= H]. now exists s. Qed.

Lemma rsc_parse_preserves (P : dict -> Prop) url body :
  rsc_assignments P -> preserves P (rsc_parse url body).
Proof.
  intros [Hdesc Hprov Hprice Hend]. unfold rsc_parse.
  repeat preserves_step; subst.
  - apply preserves_set_field. intros d.
    match goal with H : Re.search_in _ _ = Ok (Some _) |- _ =>
      destruct (search_in_some _ _ _ H) as (text & _ & Htext) end.
    now apply (Hdesc text).
  - apply preserves_set_field. intros d.
    match goal with H : Re.search_in Re.provider_at _ = Ok (Some _) |- _ =>
      destruct (search_in_some _ _ _ H) as (text & _ & Htext) end.
    now apply (Hprov text).
  - apply preserves_set_field. apply Hprice.
  - apply preserves_set_field. apply Hend.
Qed.

Lemma rsc_loop_preserves (P : dict -> Prop) responses :
  rsc_assignments P -> preserves P (rsc_loop responses).
Proof.
  intros Hassign. induction responses as [| response rest IH]; cbn [rsc_loop].
  - apply preserves_ret.
  - repeat first [ apply rsc_parse_preserves; assumption
                 | exact IH
                 | preserves_step ].
Qed.

Lemma graphql_fields_preserves (P : dict -> Prop) api_info :
  graphql_assignments P -> preserves P (graphql_fields api_info).
Proof.
  intros [Hcopy Hrating Hcount].
  unfold graphql_fields, copy_if_truthy, copy_converted, copy_first.
  repeat preserves_step;
    try (apply preserves_set_field; intros d; apply Hcopy; simpl; tauto).
  - apply preserves_set_field. intros d.
    match goal with H : py_float _ = Ok _ |- _ => now apply (Hrating _ _ _ H) end.
  - apply preserves_set_field. intros d.
    match goal with H : py_int _ = Ok _ |- _ => now apply (Hcount _ _ _ H) end.
Qed.

Lemma graphql_loop_preserves (P : dict -> Prop) responses :
  graphql_assignments P -> preserves P (graphql_loop responses).
Proof.
  intros Hassign. induction responses as [| response rest IH]; cbn [graphql_loop].
  - apply preserves_ret.
  - unfold graphql_parse.
    repeat first [ apply graphql_fields_preserves; assumption
                 | exact IH
                 | preserves_step ].
Qed.

Lemma run_extractor_preserves (P : dict -> Prop) (loop : X unit) self :
  preserves P loop -> P [] ->
  exists d, fst (run_extractor loop self) = Ok d /\ P d.
Proof.
  intros Hloop Hempty. rewrite run_extractor_eq. cbn [fst].
  eexists. split; [reflexivity |]. now apply Hloop.
Qed.


(** *** What the extractors return *)

Lemma py_float_is_float v converted : py_float v = Ok converted -> is_float converted.
Proof.
  unfold py_float, obind. destruct v; try discriminate.
  - intros [= <-]. now eexists.
  - destruct (float_of_Z z); [intros [= <-]; now eexists | discriminate].
  - intros [= <-]. now eexists.
  - destruct (float_of_string s); [intros [= <-]; now eexists | discriminate].
Qed.

Lemma py_int_is_int v converted : py_int v = Ok converted -> is_int converted.
Proof.
  unfold py_int, obind. destruct v; try discriminate.
  - intros [= <-]. now eexists.
  - intros [= <-]. now eexists.
  - destruct (Z_of_float f); [intros [= <-]; now eexists | discriminate].
  - destruct (int_of_string s); [intros [= <-]; now eexists | discriminate].
Qed.

(** X12. The structured-payload extractor never raises; what it returns is
    a dict without repeated keys whose keys are among description,
    provider, pricing and endpoints; its provider, when there is one, is a
    str that is not empty and holds no slash, and its description a str
    that holds no double quote. *)
Theorem rsc_output_is_well_formed :
  forall (responses : list value) (self : client D),
    exists d : dict,
      fst (_extract_rsc_data responses self) = Ok d /\
      dict_wf d /\
      keys_within rsc_keys d /\
      field_is "provider" (segment_without "/") d /\
      field_is "description" (text_without (String dquote EmptyString)) d.
Proof.
  intros responses self.
  set (P := fun d : dict =>
              dict_wf d /\ keys_within rsc_keys d /\
              field_is "provider" (segment_without "/") d /\
              field_is "description" (text_without (String dquote EmptyString)) d).
  apply (run_extractor_preserves P).
  - apply rsc_loop_preserves. constructor; unfold P.
    + intros body group1 d Hsearch (Hwf & Hkeys & Hprov & Hdesc).
      repeat split.
      * now apply dict_set_wf.
      * apply keys_within_set; [simpl; tauto | assumption].
      * apply field_is_set_other; [discriminate | assumption].
      * apply field_is_set_same. exists group1.
        split; [reflexivity | now apply (description_has_no_quote body)].
    + intros url group1 d Hsearch (Hwf & Hkeys & Hprov & Hdesc).
      destruct (provider_is_segment _ _ Hsearch) as (Hne & Hslash & _).
      repeat split.
      * now apply dict_set_wf.
      * apply keys_within_set; [simpl; tauto | assumption].
      * apply field_is_set_same. now exists group1.
      * apply field_is_set_other; [discriminate | assumption].
    + intros plans d (Hwf & Hkeys & Hprov & Hdesc). repeat split.
      * now apply dict_set_wf.
      * apply keys_within_set; [simpl; tauto | assumption].
      * apply field_is_set_other; [discriminate | assumption].
      * apply field_is_set_other; [discriminate | assumption].
    + intros endpoints d (Hwf & Hkeys & Hprov & Hdesc). repeat split.
      * now apply dict_set_wf.
      * apply keys_within_set; [simpl; tauto | assumption].
      * apply field_is_set_other; [discriminate | assumption].
      * apply field_is_set_other; [discriminate | assumption].
  - unfold P. repeat split.
    + constructor.
    + intros k [].
    + apply field_is_empty.
    + apply field_is_empty.
Qed.

(** X13. The GraphQL extractor never raises; what it returns is a dict
    without repeated keys whose keys are among the ten field names it
    knows; its rating, when there is one, is a float and its review count
    an int. *)
Theorem graphql_output_is_well_formed :
  forall (responses : list value) (self : client D),
    exists d : dict,
      fst (_extract_graphql_data responses self) = Ok d /\
      dict_wf d /\
      keys_within graphql_keys d /\
      field_is "rating" is_float d /\
      field_is "reviewCount" is_int d.
Proof.
  intros responses self.
  set (P := fun d : dict =>
              dict_wf d /\ keys_within graphql_keys d /\
              field_is "rating" is_float d /\ field_is "reviewCount" is_int d).
  apply (run_extractor_preserves P).
  - apply graphql_loop_preserves. constructor; unfold P.
    + intros k v d Hk (Hwf & Hkeys & Hrating & Hcount). repeat split.
      * now apply dict_set_wf.
      * apply keys_within_set; [| assumption].
        simpl in Hk. simpl. intuition.
      * apply field_is_set_other; [| assumption].
        simpl in Hk. intuition (subst; discriminate).
      * apply field_is_set_other; [| assumption].
        simpl in Hk. intuition (subst; discriminate).
    + intros v converted d Hconv (Hwf & Hkeys & Hrating & Hcount). repeat split.
      * now apply dict_set_wf.
      * apply keys_within_set; [simpl; tauto | assumption].
      * apply field_is_set_same. now apply (py_float_is_float v).
      * apply field_is_set_other; [discriminate | assumption].
    + intros v converted d Hconv (Hwf & Hkeys & Hrating & Hcount). repeat split.
      * now apply dict_set_wf.
      * apply keys_within_set; [simpl; tauto | assumption].
      * apply field_is_set_other; [discriminate | assumption].
      * apply field_is_set_same. now apply (py_int_is_int v).
  - unfold P. repeat split.
    + constructor.
    + intros k [].
    + apply field_is_empty.
    + apply field_is_empty.
Qed.

(** One turn of the loop of the structured-payload extractor. *)
Lemma rsc_loop_cons response rest d self :
  rsc_loop (response :: rest) (d, self) =
    match py_get response "requestId" VNone with
    | Raise e => (Raise e, (d, self))
    | Ok request_id =>
        match py_get response "url" (VStr "") with
        | Raise e => (Raise e, (d, self))
        | Ok url =>
            match (if truthy request_id then py_in "/api/" url else Ok false) with
            | Raise e => (Raise e, (d, self))
            | Ok false => rsc_loop rest (d, self)
            | Ok true =>
                match fst (get_response_body request_id self) with
                | Raise e => (Raise e, (d, snd (get_response_body request_id self)))
                | Ok body =>
                    if truthy body then
                      match try_except (rsc_parse url body) (fun _ => ret tt)
                              (d, snd (get_response_body request_id self)) with
                      | (Ok _, st) => rsc_loop rest st
                      | (Raise e, st) => (Raise e, st)
                      end
                    else rsc_loop rest (d, snd (get_response_body request_id self))
                end
            end
        end
    end.
Proof.
  cbn [rsc_loop]. unfold bind at 1, lift at 1.
  destruct (py_get response "requestId" VNone) as [request_id | e]; [| reflexivity].
  unfold bind at 1, lift at 1.
  destruct (py_get response "url" (VStr "")) as [url | e]; [| reflexivity].
  unfold bind at 1.
  destruct (truthy request_id); [unfold lift at 1 | reflexivity].
  destruct (py_in "/api/" url) as [[] | e]; cbn [ret]; try reflexivity.
  unfold bind at 1. unfold bind at 1, fetch_body, on_snd. cbn [fst snd].
  destruct (get_response_body request_id self) as [[body | e] s1]; cbn [fst snd];
    [| reflexivity].
  destruct (truthy body); [| reflexivity].
  destruct (try_except (rsc_parse url body) (fun _ => ret tt) (d, s1))
    as [[[] | e] st]; reflexivity.
Qed.

(** With monitoring off no body is fetched and the loops write nothing. *)
Lemma rsc_loop_unmonitored responses d self :
  network_monitoring self = false ->
  snd (rsc_loop responses (d, self)) = (d, self).
Proof.
  intros Hflag. induction responses as [| response rest IH]; [reflexivity |].
  rewrite rsc_loop_cons.
  destruct (py_get response "requestId" VNone) as [request_id | e]; [| reflexivity].
  destruct (py_get response "url" (VStr "")) as [url | e]; [| reflexivity].
  rewrite get_response_body_unfold, Hflag.
  destruct (if truthy request_id then py_in "/api/" url else Ok false)
    as [[] | e]; try reflexivity; exact IH.
Qed.

Lemma graphql_loop_unmonitored responses d self :
  network_monitoring self = false ->
  snd (graphql_loop responses (d, self)) = (d, self).
Proof.
  intros Hflag. induction responses as [| response rest IH]; [reflexivity |].
  rewrite graphql_loop_cons.
  destruct (py_get response "requestId" VNone) as [request_id | e]; [| reflexivity].
  rewrite get_response_body_unfold, Hflag.
  destruct (truthy request_id); exact IH.
Qed.

(** X14. With monitoring off both extractors return an empty mapping for any
    responses, and leave the client as it was: no call goes to the
    driver. *)
Theorem extractors_need_monitoring :
  forall (responses : list value) (self : client D),
    network_monitoring self = false ->
    _extract_rsc_data responses self = (Ok [], self) /\
    _extract_graphql_data responses self = (Ok [], self).
Proof.
  intros responses self Hflag.
  unfold _extract_rsc_data, _extract_graphql_data.
  rewrite !run_extractor_eq.
  now rewrite (rsc_loop_unmonitored _ _ _ Hflag),
    (graphql_loop_unmonitored _ _ _ Hflag).
Qed.

(** X15. A record whose body could not be fetched (the fetcher answered
    [None], as it does when the driver raises, or an empty body) is
    skipped by the GraphQL extractor, which goes on with the records that
    follow. *)
Theorem graphql_skips_unfetched_body :
  forall (self : client D) (record : dict) (request_id body : value)
         (rest : list value),
    dict_get "requestId" record = Some request_id ->
    truthy request_id = true ->
    fst (get_response_body request_id self) = Ok body ->
    truthy body = false ->
    _extract_graphql_data (VDict record :: rest) self =
      _extract_graphql_data rest (snd (get_response_body request_id self)).
Proof.
  intros self record request_id body rest Hid Htruthy Hbody Hfalsy.
  unfold _extract_graphql_data. rewrite !run_extractor_eq, graphql_loop_cons.
  cbn [py_get]. rewrite Hid, Htruthy, Hbody. cbv beta iota. rewrite Hfalsy.
  reflexivity.
Qed.


(** X17. A body that is JSON but holds a number, a boolean or null ends the
    scan of the GraphQL extractor: the membership test on it raises a
    [TypeError] that only the outer handler catches, and the records that
    follow are not looked at. *)
Theorem graphql_scalar_body_ends_scan :
  forall (self : client D) (record : dict) (request_id parsed : value)
         (text : string) (rest : list value),
    dict_get "requestId" record = Some request_id ->
    truthy request_id = true ->
    fst (get_response_body request_id self) = Ok (VStr text) ->
    Json.loads_string text = Ok parsed ->
    is_scalar parsed = true ->
    _extract_graphql_data (VDict record :: rest) self =
      (Ok [], snd (get_response_body request_id self)).
Proof.
  intros self record request_id parsed text rest Hid Htruthy Hbody Hloads Hscalar.
  assert (Htext : truthy (VStr text) = true).
  { destruct text; [discriminate Hloads | reflexivity]. }
  unfold _extract_graphql_data. rewrite !run_extractor_eq, graphql_loop_cons.
  cbn [py_get]. rewrite Hid, Htruthy, Hbody. cbv beta iota. rewrite Htext.
  cbv beta iota.
  unfold try_json, graphql_parse. cbn [Json.loads]. rewrite Hloads.
  destruct parsed; try discriminate Hscalar; reflexivity.
Qed.

(** X18. A record with a truthy requestId whose [url] is [None] ends the
    scan of the structured-payload extractor before any body is fetched:
    the membership test on [None] raises a [TypeError] outside the inner
    handler. The mapping is empty and the client untouched, whatever
    records follow. *)
Theorem rsc_null_url_ends_scan :
  forall (self : client D) (record : dict) (request_id : value)
         (rest : list value),
    dict_get "requestId" record = Some request_id ->
    truthy request_id = true ->
    dict_get "url" record = Some VNone ->
    _extract_rsc_data (VDict record :: rest) self = (Ok [], self).
Proof.
  intros self record request_id rest Hid Htruthy Hurl.
  unfold _extract_rsc_data. rewrite run_extractor_eq, rsc_loop_cons.
  cbn [py_get]. rewrite Hid, Hurl, Htruthy. reflexivity.
Qed.

(** X19. A record that the structured-payload extractor does not want (its
    requestId is falsy or its url, a str, does not hold [/api/]) is passed
    over without any fetch. *)
Theorem rsc_passes_over_other_records :
  forall (self : client D) (record : dict) (request_id : value) (url : string)
         (rest : list value),
    dict_get "requestId" record = Some request_id ->
    dict_get "url" record = Some (VStr url) ->
    truthy request_id && contains "/api/" url = false ->
    _extract_rsc_data (VDict record :: rest) self = _extract_rsc_data rest self.
Proof.
  intros self record request_id url rest Hid Hurl Hskip.
  unfold _extract_rsc_data. rewrite !run_extractor_eq.
  rewrite rsc_loop_cons. cbn [py_get]. rewrite Hid, Hurl.
  destruct (truthy request_id); cbn [andb py_in] in *; [rewrite Hskip |];
    reflexivity.
Qed.

End WithDriver.
End MoreExtractorFacts.

(** * Further properties of the merge and of the whole assessment *)

Module MoreMergeFacts.
Import Text Py Monad Client Spec Extensions.
Import BufferFacts ControllerFacts DictFacts MoreControllerFacts.
Local Open Scope list_scope.

Lemma merge_as_items (enhanced_data : dict) (result : value) :
  merge enhanced_data result = merge_items enhanced_data result.
Proof. destruct enhanced_data; reflexivity. Qed.

Lemma dict_set_same_value k v (d : dict) :
  dict_get k d = Some v -> dict_set k v d = d.
Proof.
  induction d as [| [k' v'] d IH]; simpl; [discriminate |].
  destruct (String.eqb_spec k k') as [-> | Hne].
  - now intros [= ->].
  - intros H. now rewrite IH.
Qed.

(** X20. The merge never drops a field of the baseline, and a field of the
    merged result is either the baseline's or a truthy value of the
    extracted data. *)
Theorem merge_keeps_baseline_adds_truthy :
  forall (baseline enhanced_data : dict),
    dict_wf enhanced_data ->
    exists merged : dict,
      merge enhanced_data (VDict baseline) = Ok (VDict merged) /\
      forall key,
        (dict_mem key baseline = true -> dict_mem key merged = true) /\
        (forall v, dict_get key merged = Some v ->
                   dict_get key baseline = Some v \/
                   (truthy v = true /\ dict_get key enhanced_data = Some v)).
Proof.
  intros baseline enhanced_data Hwf.
  destruct (merge_items_spec enhanced_data baseline Hwf) as (merged & Hrun & Hget).
  exists merged. rewrite merge_as_items. split; [exact Hrun |].
  intros key. specialize (Hget key). unfold dict_mem. split.
  - rewrite Hget.
    destruct (dict_get key enhanced_data) as [v |]; [| trivial].
    destruct (truthy v && py_ne v (existing key baseline)); trivial.
  - intros v Hv. rewrite Hget in Hv.
    destruct (dict_get key enhanced_data) as [x |]; [| now left].
    destruct (truthy x && py_ne x (existing key baseline)) eqn:Hcond; [| now left].
    injection Hv as ->. right.
    apply andb_prop in Hcond as [Ht _]. now split.
Qed.

(** Merging into a dict that already holds every value the merge would
    write changes nothing. *)
Lemma merge_items_fixed (items : dict) : forall d : dict,
  dict_wf items ->
  (forall k v, dict_get k items = Some v ->
               truthy v && py_ne v (existing k d) = true ->
               dict_get k d = Some v) ->
  merge_items items (VDict d) = Ok (VDict d).
Proof.
  unfold dict_wf.
  induction items as [| [k v] items IH]; intros d Hwf Hheld; simpl; [reflexivity |].
  inversion Hwf as [| k0 keys Hfresh Hrest]; subst.
  assert (Hrest_held : forall k' v', dict_get k' items = Some v' ->
                         truthy v' && py_ne v' (existing k' d) = true ->
                         dict_get k' d = Some v').
  { intros k' v' Hk' Hcond. apply Hheld; [| exact Hcond]. simpl.
    destruct (String.eqb_spec k' k) as [-> | _]; [| exact Hk'].
    now rewrite (dict_get_absent _ _ Hfresh) in Hk'. }
  fold (existing k d).
  destruct (truthy v) eqn:Ht; [| now apply IH].
  destruct (py_ne v (existing k d)) eqn:Hne; [| now apply IH].
  simpl. rewrite (dict_set_same_value k v d).
  - now apply IH.
  - apply Hheld; [simpl; now rewrite String.eqb_refl | now rewrite Ht, Hne].
Qed.

(** X21. The merge is idempotent: merging the same extracted data into the
    merged result gives the merged result again. *)
Theorem merge_is_idempotent :
  forall (baseline enhanced_data : dict),
    dict_wf enhanced_data ->
    exists merged : dict,
      merge enhanced_data (VDict baseline) = Ok (VDict merged) /\
      merge enhanced_data (VDict merged) = Ok (VDict merged).
Proof.
  intros baseline enhanced_data Hwf.
  destruct (merge_items_spec enhanced_data baseline Hwf) as (merged & Hrun & Hget).
  exists merged. rewrite !merge_as_items. split; [exact Hrun |].
  apply merge_items_fixed; [exact Hwf |].
  intros k v Hk Hcond.
  pose proof (Hget k) as Hmerged. rewrite Hk in Hmerged.
  destruct (truthy v && py_ne v (existing k baseline)) eqn:Hfirst; [exact Hmerged |].
  unfold existing in Hcond. rewrite Hmerged in Hcond. fold (existing k baseline) in Hcond.
  congruence.
Qed.

(** X22. A static result that is not a dict makes the merge raise as soon as
    one extracted value is truthy (the exception sends the orchestrator to
    its fallback), and is returned as it is when none is. *)
Theorem merge_needs_dict_result :
  forall (enhanced_data : dict) (result : value),
    (forall d, result <> VDict d) ->
    merge enhanced_data result =
      if existsb (fun kv => truthy (snd kv)) enhanced_data
      then Raise AttributeError else Ok result.
Proof.
  intros enhanced_data result Hnot. rewrite merge_as_items.
  induction enhanced_data as [| [k v] items IH]; simpl; [reflexivity |].
  destruct (truthy v); simpl; [| exact IH].
  destruct result; try reflexivity. now elim (Hnot d).
Qed.

Section WithDriver.
Context {D : Driver}.
Implicit Types (self : client D) (c : call).

Lemma deliver_nothing self : deliver [] self = (Ok tt, self).
Proof. reflexivity. Qed.







End WithDriver.
End MoreMergeFacts.

(** * The further properties on the examples *)

Module MoreChecks.
Import Text Py Monad Client Spec Examples Extensions MoreExamples.
Import MoreBufferFacts MoreControllerFacts MoreExtractorFacts MoreMergeFacts.
Local Open Scope list_scope.

Lemma record_has_fixed_keys_witness :
  exists d : dict,
    VDict [("requestId", VStr "a"); ("url", VNone); ("method", VNone);
           ("headers", VDict []); ("timestamp", VNone); ("type", VNone);
           ("postData", VNone)] = VDict d /\
    map fst d = request_keys /\
    dict_mem "url" d = true.
Proof.
  apply (record_has_fixed_keys (request_event "a")). reflexivity.
Defined.

Lemma envelope_needs_dict_sub_object_witness :
  request_data (VDict [("params", VDict null_request_params)])
    = Raise AttributeError.
Proof.
  apply (proj1 (envelope_needs_dict_sub_object
                  [("params", VDict null_request_params)] null_request_params
                  eq_refl) VNone).
  - reflexivity.
  - discriminate.
Defined.


Lemma start_succeeds_on_healthy_driver_witness :
  fst (start_network_monitoring (client_of quiet tt false 1000)) = Ok true /\
  network_monitoring (snd (start_network_monitoring (client_of quiet tt false 1000)))
    = true.
Proof.
  destruct (start_succeeds_on_healthy_driver (D := quiet)
              (fun c w => ex_intro _ VNone eq_refl)
              (client_of quiet tt false 1000) eq_refl) as (Hres & Hflag & _).
  split; assumption.
Defined.

Lemma failed_enable_registers_nothing_witness :
  fst (start_network_monitoring (client_of no_cdp tt false 1000)) = Ok false /\
  network_monitoring (snd (start_network_monitoring (client_of no_cdp tt false 1000)))
    = false /\
  calls (snd (start_network_monitoring (client_of no_cdp tt false 1000)))
    = [GetChromeDriver; ExecuteCdpCmd "Network.enable" (VDict [])].
Proof.
  apply (failed_enable_registers_nothing (client_of no_cdp tt false 1000)
           VNone (DriverError "cdp")); reflexivity.
Defined.

Lemma stop_resets_flag_witness :
  fst (stop_network_monitoring (client_of quiet tt true 1000)) = Ok true /\
  network_monitoring (snd (stop_network_monitoring (client_of quiet tt true 1000)))
    = false /\
  calls (snd (stop_network_monitoring (client_of quiet tt true 1000)))
    = [ExecuteCdpCmd "Network.disable" (VDict [])].
Proof.
  apply (stop_resets_flag (client_of quiet tt true 1000) eq_refl).
  intros _. now exists VNone.
Defined.



Lemma extractors_need_monitoring_witness :
  _extract_rsc_data [VDict (api_record "7")] (client_of (serving weather_payload) tt false 1000)
    = (Ok [], client_of (serving weather_payload) tt false 1000) /\
  _extract_graphql_data [VDict (api_record "7")]
    (client_of (serving weather_payload) tt false 1000)
    = (Ok [], client_of (serving weather_payload) tt false 1000).
Proof.
  apply (extractors_need_monitoring [VDict (api_record "7")]
           (client_of (serving weather_payload) tt false 1000)).
  reflexivity.
Defined.

Lemma graphql_skips_unfetched_body_witness :
  _extract_graphql_data [VDict (graphql_record "bad"); VDict (graphql_record "42")]
    (client_of flaky tt true 1000)
    = _extract_graphql_data [VDict (graphql_record "42")]
        (snd (get_response_body (VStr "bad") (client_of flaky tt true 1000))).
Proof.
  apply (graphql_skips_unfetched_body (client_of flaky tt true 1000)
           (graphql_record "bad") (VStr "bad") VNone
           [VDict (graphql_record "42")]); reflexivity.
Defined.


Lemma graphql_scalar_body_ends_scan_witness :
  _extract_graphql_data [VDict (graphql_record "1"); VDict (graphql_record "2")]
    (client_of (serving "null") tt true 1000)
    = (Ok [], snd (get_response_body (VStr "1") (client_of (serving "null") tt true 1000))).
Proof.
  apply (graphql_scalar_body_ends_scan (client_of (serving "null") tt true 1000)
           (graphql_record "1") (VStr "1") VNone "null"
           [VDict (graphql_record "2")]); reflexivity.
Defined.

Lemma rsc_null_url_ends_scan_witness :
  _extract_rsc_data
    [VDict [("requestId", VStr "1"); ("url", VNone)]; VDict (api_record "7")]
    (client_of (serving weather_payload) tt true 1000)
    = (Ok [], client_of (serving weather_payload) tt true 1000).
Proof.
  apply (rsc_null_url_ends_scan (client_of (serving weather_payload) tt true 1000)
           [("requestId", VStr "1"); ("url", VNone)] (VStr "1")
           [VDict (api_record "7")]); reflexivity.
Defined.

Lemma rsc_passes_over_other_records_witness :
  _extract_rsc_data [VDict (graphql_record "1"); VDict (api_record "7")]
    (client_of (serving weather_payload) tt true 1000)
    = _extract_rsc_data [VDict (api_record "7")]
        (client_of (serving weather_payload) tt true 1000).
Proof.
  apply (rsc_passes_over_other_records
           (client_of (serving weather_payload) tt true 1000)
           (graphql_record "1") (VStr "1") "https://rapidapi.com/graphql"
           [VDict (api_record "7")]); reflexivity.
Defined.

Lemma merge_keeps_baseline_adds_truthy_witness :
  exists merged : dict,
    merge some_enhanced (VDict some_baseline) = Ok (VDict merged) /\
    dict_mem "rating" merged = true.
Proof.
  destruct (merge_keeps_baseline_adds_truthy some_baseline some_enhanced)
    as (merged & Hrun & Hkeys).
  - repeat constructor; simpl; intuition discriminate.
  - exists merged. split; [exact Hrun |].
    apply (proj1 (Hkeys "rating"%string)). reflexivity.
Defined.

Lemma merge_is_idempotent_witness :
  exists merged : dict,
    merge some_enhanced (VDict some_baseline) = Ok (VDict merged) /\
    merge some_enhanced (VDict merged) = Ok (VDict merged).
Proof.
  apply (merge_is_idempotent some_baseline some_enhanced).
  repeat constructor; simpl; intuition discriminate.
Defined.

Lemma merge_needs_dict_result_witness :
  merge some_enhanced VNone = Raise AttributeError.
Proof.
  apply (merge_needs_dict_result some_enhanced VNone). discriminate.
Defined.

End MoreChecks.
